(** * Cart pricing and coupon redemption

    A shallow embedding of the cart repository (class [CartRepository] of
    [packages/database/src/repositories], the module that the repository
    index imports as [./cart.repository]) and of the coupon mutations of the
    arrangement subgraph ([packages/subgraphs/arrangement/src/resolvers.ts],
    [Mutation.applyCoupon] and [Mutation.removeCoupon]).

    Modelling choices.
    - The Prisma client is the state: one finite map per table that the code
      touches, keyed by the row's primary key [id].
    - An [async] method is a computation in the monad [M]: it reads and writes
      the tables and either returns a value or throws.  There is no
      transaction in the source, so the writes made before a [throw] stay.
      A computation in [M] is a request that runs with no other request in
      between; a request that gives way at its [await]s is a [Task].
    - JavaScript numbers that hold money are exact rationals ([Q]); quantities
      and counters are integers ([Z]); a [Date] is its millisecond epoch.
    - [new Date()] is the argument [now] of the methods that read the clock.

    Beside the mutations of the cart the development covers how carts are
    found and created ([findByUserId], [createOrUpdateCart]), the resolvers
    of the transaction subgraph that call the repository
    ([packages/subgraphs/transaction/src/resolvers/cart.resolver.ts]) and the
    refunds of [PaymentRepository.createRefund]. *)

From Stdlib Require Import QArith Qminmax Lqa.
From stdpp Require Import gmap strings list fin_maps option.

Local Open Scope Q_scope.

#[warnings="-notation-for-abbreviation"]
Notation ID := string (only parsing).
#[warnings="-notation-for-abbreviation"]
Notation DateTime := Z (only parsing).

(** JavaScript truthiness of an optional string ([item.variantId],
    [userId]): [undefined], [null] and the empty string are falsy. *)
Definition truthy (s : option string) : option string :=
  match s with
  | Some EmptyString => None
  | other => other
  end.

(** Truthiness of an optional number ([coupon.maxUses && ...]): [null] and
    zero are falsy. *)
Definition truthyZ (n : option Z) : option Z :=
  match n with
  | Some n => if Z.eqb n 0 then None else Some n
  | None => None
  end.

Definition truthyQ (q : option Q) : option Q :=
  match q with
  | Some q => if Qeq_bool q 0 then None else Some q
  | None => None
  end.

(** [a < b] and [a > b] on numbers. *)
Definition Qltb (a b : Q) : bool :=
  match a ?= b with Lt => true | _ => false end.

(** ** The tables *)

Module Product.
Record t := mk { price : Q }.
End Product.

Module ProductVariant.
Record t := mk { productId : ID; price : Q }.
End ProductVariant.

Module CartItem.
Record t := mk {
  cartId : ID;
  productId : ID;
  variantId : option ID;
  quantity : Z;
  price : Q;
  total : Q
}.
End CartItem.

Module PromoCode.
Record t := mk {
  code : string;
  discount : Q;
  isPercentage : bool;
  expiresAt : option DateTime
}.
End PromoCode.

Inductive DiscountType := PERCENTAGE | FIXED_AMOUNT | FREE_SHIPPING | BUY_X_GET_Y.

Module Coupon.
Record t := mk {
  code : string;
  discountType : DiscountType;
  discountValue : Q;
  minPurchase : option Q;
  maxDiscount : option Q;
  maxUses : option Z;
  usesCount : Z;
  isActive : bool;
  startDate : DateTime;
  endDate : DateTime
}.

Definition incrementUsesCount (c : t) : t :=
  mk (code c) (discountType c) (discountValue c) (minPurchase c)
     (maxDiscount c) (maxUses c) (usesCount c + 1)%Z (isActive c)
     (startDate c) (endDate c).
End Coupon.

(** A [cart] row carries the columns written by the repository ([subtotal],
    [tax], [shipping], [discount], [total], the [promoCode] relation) and the
    two written by the arrangement resolvers ([discountAmount],
    [couponCode]). *)
Module Cart.
Record t := mk {
  userId : option ID;
  subtotal : Q;
  tax : Q;
  shipping : Q;
  discount : Q;
  total : Q;
  promoCodeId : option ID;
  discountAmount : Q;
  couponCode : option string;
  expiresAt : option DateTime
}.

(** [data: { subtotal, discount, tax, shipping, total }] *)
Definition setTotals (subtotal discount tax shipping total : Q) (c : t) : t :=
  mk (userId c) subtotal tax shipping discount total (promoCodeId c)
     (discountAmount c) (couponCode c) (expiresAt c).

(** [data: { promoCode: { connect: { id } } }] and
    [data: { promoCode: { disconnect: true } }] *)
Definition setPromoCode (p : option ID) (c : t) : t :=
  mk (userId c) (subtotal c) (tax c) (shipping c) (discount c) (total c) p
     (discountAmount c) (couponCode c) (expiresAt c).

(** [data: { discountAmount, couponCode }] *)
Definition setCoupon (amount : Q) (code : option string) (c : t) : t :=
  mk (userId c) (subtotal c) (tax c) (shipping c) (discount c) (total c)
     (promoCodeId c) amount code (expiresAt c).
End Cart.

Record Prisma := mkPrisma {
  cart : gmap ID Cart.t;
  cartItem : gmap ID CartItem.t;
  product : gmap ID Product.t;
  productVariant : gmap ID ProductVariant.t;
  promoCode : gmap ID PromoCode.t;
  coupon : gmap ID Coupon.t
}.

Definition withCart (f : gmap ID Cart.t → gmap ID Cart.t) (db : Prisma) : Prisma :=
  mkPrisma (f (cart db)) (cartItem db) (product db) (productVariant db)
           (promoCode db) (coupon db).

Definition withCartItem (f : gmap ID CartItem.t → gmap ID CartItem.t)
    (db : Prisma) : Prisma :=
  mkPrisma (cart db) (f (cartItem db)) (product db) (productVariant db)
           (promoCode db) (coupon db).

Definition withCoupon (f : gmap ID Coupon.t → gmap ID Coupon.t)
    (db : Prisma) : Prisma :=
  mkPrisma (cart db) (cartItem db) (product db) (productVariant db)
           (promoCode db) (f (coupon db)).

(** ** Errors and the monad of asynchronous methods *)

Inductive Error :=
  | ProductNotFound (productId : ID)
  | VariantNotFound (variantId : ID)
  | CartItemNotFound (cartItemId : ID)
  | CartNotFound (cartId : ID)
  | PromoCodeNotFound (code : string)
  | PromoCodeExpired (code : string)
  | AuthenticationError
  | CouponNotFound
  | CouponNotActiveOrExpired
  | CouponUsageLimitReached
  | MinimumPurchaseRequired (minPurchase : Q)
  | TypeError
  | PrismaRecordNotFound.

Inductive Result (A : Type) :=
  | Throw (e : Error)
  | Return (a : A).
Arguments Throw {A} e.
Arguments Return {A} a.

Definition M (A : Type) : Type := Prisma → Result A * Prisma.

Definition ret {A} (a : A) : M A := λ db, (Return a, db).
Definition throw {A} (e : Error) : M A := λ db, (Throw e, db).
Definition bind {A B} (m : M A) (k : A → M B) : M B :=
  λ db, match m db with
        | (Return a, db') => k a db'
        | (Throw e, db') => (Throw e, db')
        end.
Definition get : M Prisma := λ db, (Return db, db).
Definition modify (f : Prisma → Prisma) : M unit := λ db, (Return tt, f db).

Notation "'let*' x := m 'in' k" := (bind m (λ x, k))
  (at level 10, x pattern, m at level 100, k at level 200).
Notation "m ;;; k" := (bind m (λ _, k))
  (at level 100, k at level 200, right associativity).

(** ** The Prisma calls the code makes *)

Definition hasRow {A} (table : gmap ID A) (id : ID) : bool :=
  bool_decide (is_Some (table !! id)).

(** The first row of a table that satisfies a [where] clause. *)
Definition findRow {A} (P : A → bool) (table : gmap ID A) : option (ID * A) :=
  snd <$> list_find (λ r, P r.2 = true) (map_to_list table).

(** The variants of product [productId] whose id is [v] (at most one). *)
Definition variantsOf (db : Prisma) (productId v : ID) : list ProductVariant.t :=
  match productVariant db !! v with
  | Some pv =>
    if String.eqb (ProductVariant.productId pv) productId then [pv] else []
  | None => []
  end.

(** [prisma.product.findUnique({ where: { id }, include: { variants:
    variantId ? { where: { id: variantId } } : undefined } })]: the product
    and, when a variant was asked for, its variants with that id. *)
Definition product_findUnique (id : ID) (variantId : option ID)
    : M (option (Product.t * option (list ProductVariant.t))) :=
  let* db := get in
  ret (match product db !! id with
       | None => None
       | Some p =>
         Some (p, match truthy variantId with
                  | None => None
                  | Some v => Some (variantsOf db id v)
                  end)
       end).

(** The [where: { cartId, productId, variantId }] clause on cart items. *)
Definition sameLine (cartId productId : ID) (variantId : option ID)
    (r : CartItem.t) : Prop :=
  CartItem.cartId r = cartId ∧ CartItem.productId r = productId
  ∧ CartItem.variantId r = variantId.

Global Instance sameLine_dec cartId productId variantId r :
  Decision (sameLine cartId productId variantId r) :=
  ltac:(unfold sameLine; apply _).

Definition cartItem_findFirst (cartId productId : ID) (variantId : option ID)
    : M (option (ID * CartItem.t)) :=
  let* db := get in
  ret (findRow (λ r, bool_decide (sameLine cartId productId variantId r))
               (cartItem db)).

Definition cartItem_findUnique (id : ID) : M (option CartItem.t) :=
  let* db := get in ret (cartItem db !! id).

(** [prisma.cartItem.update({ where: { id }, data: { quantity, total } })];
    Prisma throws when no row has that id. *)
Definition cartItem_update (id : ID) (quantity : Z) (total : Q) : M unit :=
  let* db := get in
  match cartItem db !! id with
  | None => throw PrismaRecordNotFound
  | Some r =>
    modify (withCartItem
      <[id := CartItem.mk (CartItem.cartId r) (CartItem.productId r)
                (CartItem.variantId r) quantity (CartItem.price r) total]>)
  end.

(** [prisma.cartItem.create]: the new row gets a fresh id; each [connect]
    throws when the row it names does not exist. *)
Definition cartItem_create (cartId productId : ID) (variantId : option ID)
    (quantity : Z) (price total : Q) : M unit :=
  let* db := get in
  if hasRow (cart db) cartId && hasRow (product db) productId
     && from_option (hasRow (productVariant db)) true variantId
  then
    modify (withCartItem
      <[fresh (dom (cartItem db)) :=
          CartItem.mk cartId productId variantId quantity price total]>)
  else throw PrismaRecordNotFound.

Definition cartItem_delete (id : ID) : M unit :=
  let* db := get in
  match cartItem db !! id with
  | None => throw PrismaRecordNotFound
  | Some _ => modify (withCartItem (delete id))
  end.

Definition cartItem_deleteMany (cartId : ID) : M unit :=
  modify (withCartItem
    (filter (λ kv, CartItem.cartId kv.2 ≠ cartId))).

Definition cart_update (id : ID) (data : Cart.t → Cart.t) : M unit :=
  let* db := get in
  match cart db !! id with
  | None => throw PrismaRecordNotFound
  | Some c => modify (withCart <[id := data c]>)
  end.

(** A cart as [findUnique] returns it with [include: { items: true,
    promoCode: true }]. *)
Record CartWithItems := mkCartWithItems {
  id : ID;
  row : Cart.t;
  items : list (ID * CartItem.t);
  promo : option PromoCode.t
}.

Definition itemsOf (cartId : ID) (db : Prisma) : list (ID * CartItem.t) :=
  map_to_list (filter (λ kv, CartItem.cartId kv.2 = cartId) (cartItem db)).

Definition cart_findUnique (cartId : ID) : M (option CartWithItems) :=
  let* db := get in
  ret (match cart db !! cartId with
       | None => None
       | Some c =>
         Some (mkCartWithItems cartId c (itemsOf cartId db)
                 (Cart.promoCodeId c ≫= λ p, promoCode db !! p))
       end).

(** ** CartRepository *)

(** [findById] joins more than is kept here: its [include] also brings the
    user of the cart and, for every item, the product and the variant.  The
    value modelled is the cart row with its items and its promo code; what
    is said below of a cart that a method returns is said of these. *)
Definition findById (id : ID) : M (option CartWithItems) := cart_findUnique id.

Definition recalculateCartTotals (cartId : ID) : M unit :=
  let* cart := cart_findUnique cartId in
  match cart with
  | None => throw (CartNotFound cartId)
  | Some cart =>
    let subtotal :=
      fold_left (λ sum item, sum + CartItem.total item.2) (items cart) 0 in
    let discount :=
      match promo cart with
      | Some promoCode =>
        if PromoCode.isPercentage promoCode
        then subtotal * (PromoCode.discount promoCode / 100)
        else Qmin (PromoCode.discount promoCode) subtotal
      | None => 0
      end in
    let taxRate := 1 # 10 in
    let tax := (subtotal - discount) * taxRate in
    let shipping := if Qltb 0 subtotal then 10 else 0 in
    let total := subtotal - discount + tax + shipping in
    cart_update cartId (Cart.setTotals subtotal discount tax shipping total)
  end.

Record CartItemInput := mkCartItemInput {
  productId : ID;
  variantId : option ID;
  quantity : Z
}.

Definition addItem (cartId : ID) (item : CartItemInput)
    : M (option CartWithItems) :=
  let* product := product_findUnique (productId item) (variantId item) in
  match product with
  | None => throw (ProductNotFound (productId item))
  | Some (product, variants) =>
    match truthy (variantId item), variants with
    | Some v, (None | Some []) => throw (VariantNotFound v)
    | _, _ =>
      let price :=
        match truthy (variantId item), variants with
        | Some _, Some (variant :: _) => ProductVariant.price variant
        | _, _ => Product.price product
        end in
      let* existingItem :=
        cartItem_findFirst cartId (productId item) (truthy (variantId item)) in
      match existingItem with
      | Some (existingId, existingItem) =>
        cartItem_update existingId
          (CartItem.quantity existingItem + quantity item)%Z
          (inject_Z (CartItem.quantity existingItem + quantity item) * price)
      | None =>
        cartItem_create cartId (productId item) (truthy (variantId item))
          (quantity item) price (inject_Z (quantity item) * price)
      end;;;
      recalculateCartTotals cartId;;;
      findById cartId
    end
  end.

(** [updateItem(cartItemId, data)], with [quantity] for [data.quantity]. *)
Definition updateItem (cartItemId : ID) (quantity : Z)
    : M (option CartWithItems) :=
  let* cartItem := cartItem_findUnique cartItemId in
  match cartItem with
  | None => throw (CartItemNotFound cartItemId)
  | Some cartItem =>
    cartItem_update cartItemId quantity
      (inject_Z quantity * CartItem.price cartItem);;;
    recalculateCartTotals (CartItem.cartId cartItem);;;
    findById (CartItem.cartId cartItem)
  end.

Definition removeItem (cartItemId : ID) : M (option CartWithItems) :=
  let* cartItem := cartItem_findUnique cartItemId in
  match cartItem with
  | None => throw (CartItemNotFound cartItemId)
  | Some cartItem =>
    cartItem_delete cartItemId;;;
    recalculateCartTotals (CartItem.cartId cartItem);;;
    findById (CartItem.cartId cartItem)
  end.

Definition clearCart (cartId : ID) : M (option CartWithItems) :=
  cartItem_deleteMany cartId;;;
  cart_update cartId (λ c, Cart.setPromoCode None (Cart.setTotals 0 0 0 0 0 c));;;
  findById cartId.

Definition promoCode_findUnique (code : string) : M (option (ID * PromoCode.t)) :=
  let* db := get in
  ret (findRow (λ p, String.eqb (PromoCode.code p) code) (promoCode db)).

Definition applyPromoCode (now : DateTime) (cartId : ID) (code : string)
    : M (option CartWithItems) :=
  let* promoCode := promoCode_findUnique code in
  match promoCode with
  | None => throw (PromoCodeNotFound code)
  | Some (promoCodeId, promoCode) =>
    if from_option (λ expiresAt, Z.ltb expiresAt now) false
         (PromoCode.expiresAt promoCode)
    then throw (PromoCodeExpired code)
    else
      cart_update cartId (Cart.setPromoCode (Some promoCodeId));;;
      recalculateCartTotals cartId;;;
      findById cartId
  end.

Definition removePromoCode (cartId : ID) : M (option CartWithItems) :=
  cart_update cartId (Cart.setPromoCode None);;;
  recalculateCartTotals cartId;;;
  findById cartId.

(** ** The coupon mutations of the arrangement subgraph *)

Module User.
Record t := mk { id : ID; role : string }.
End User.

Definition coupon_findUnique (code : string) : M (option (ID * Coupon.t)) :=
  let* db := get in
  ret (findRow (λ c, String.eqb (Coupon.code c) code) (coupon db)).

(** [prisma.coupon.update({ where: { id }, data: { usesCount: { increment:
    1 } } })] *)
Definition coupon_incrementUsesCount (id : ID) : M unit :=
  let* db := get in
  match coupon db !! id with
  | None => throw PrismaRecordNotFound
  | Some c => modify (withCoupon <[id := Coupon.incrementUsesCount c]>)
  end.

(** [prisma.cart.findUnique({ where: { id }, include: { items: { include:
    { product: true } } } })]: the items of the cart, each with its
    product. *)
Definition cart_findUnique_products (cartId : ID)
    : M (option (list (CartItem.t * option Product.t))) :=
  let* db := get in
  ret (match cart db !! cartId with
       | None => None
       | Some _ =>
         Some ((λ item, (item.2, product db !! CartItem.productId item.2))
               <$> itemsOf cartId db)
       end).

Record ApplyCouponPayload := mkApplyCouponPayload {
  payloadCartId : ID;
  payloadDiscountAmount : Q;
  payloadCouponCode : string
}.

(** [cart.items.reduce((total, item) => total + item.product.price *
    item.quantity, 0)]; reading [price] of an absent product is a
    [TypeError]. *)
Definition cartTotalOf (items : list (CartItem.t * option Product.t)) : option Q :=
  fold_left
    (λ total item,
       match total, item.2 with
       | Some total, Some product =>
         Some (total + Product.price product * inject_Z (CartItem.quantity item.1))
       | _, _ => None
       end)
    items (Some 0).

(** The [switch (coupon.discountType)] of [applyCoupon]. *)
Definition discountAmountOf (coupon : Coupon.t) (cartTotal : Q) : Q :=
  match Coupon.discountType coupon with
  | PERCENTAGE =>
    let discountAmount := cartTotal * (Coupon.discountValue coupon / 100) in
    match truthyQ (Coupon.maxDiscount coupon) with
    | Some maxDiscount =>
      if Qltb maxDiscount discountAmount then maxDiscount else discountAmount
    | None => discountAmount
    end
  | FIXED_AMOUNT => Coupon.discountValue coupon
  | FREE_SHIPPING => 0
  | BUY_X_GET_Y => 0
  end.

(** [if (coupon.minPurchase && cartTotal < coupon.minPurchase) throw ...] *)
Definition checkMinPurchase (coupon : Coupon.t) (cartTotal : Q) : M unit :=
  match truthyQ (Coupon.minPurchase coupon) with
  | Some minPurchase =>
    if Qltb cartTotal minPurchase
    then throw (MinimumPurchaseRequired minPurchase)
    else ret tt
  | None => ret tt
  end.

Definition applyCoupon (now : DateTime) (user : option User.t)
    (code : string) (cartId : ID) : M ApplyCouponPayload :=
  match user with
  | None => throw AuthenticationError
  | Some _ =>
    let* coupon := coupon_findUnique code in
    match coupon with
    | None => throw CouponNotFound
    | Some (couponId, coupon) =>
      if negb (Coupon.isActive coupon)
         || Z.ltb (Coupon.endDate coupon) now
         || Z.ltb now (Coupon.startDate coupon)
      then throw CouponNotActiveOrExpired
      else if from_option (λ maxUses, Z.leb maxUses (Coupon.usesCount coupon))
                false (truthyZ (Coupon.maxUses coupon))
      then throw CouponUsageLimitReached
      else
        let* cart := cart_findUnique_products cartId in
        match cart with
        | None => throw (CartNotFound cartId)
        | Some items =>
          match cartTotalOf items with
          | None => throw TypeError
          | Some cartTotal =>
            checkMinPurchase coupon cartTotal;;;
            let discountAmount := discountAmountOf coupon cartTotal in
            coupon_incrementUsesCount couponId;;;
            cart_update cartId (Cart.setCoupon discountAmount (Some code));;;
            ret (mkApplyCouponPayload cartId discountAmount code)
          end
        end
    end
  end.

Definition removeCoupon (user : option User.t) (cartId : ID) : M bool :=
  match user with
  | None => throw AuthenticationError
  | Some _ =>
    cart_update cartId (Cart.setCoupon 0 None);;;
    ret true
  end.

(** ** Small stores to run the code on *)

Definition emptyCart : Cart.t :=
  Cart.mk None 0 0 0 0 0 None 0 None None.

Definition catalog : gmap ID Product.t :=
  {[ "mug" := Product.mk 10; "lamp" := Product.mk 50; "book" := Product.mk 30 ]}.

(** One empty cart, as [createOrUpdateCart] creates it. *)
Definition shop : Prisma :=
  mkPrisma {[ "cart1" := emptyCart ]} ∅ catalog ∅ ∅ ∅.

(** The catalog sets a new price for a product. *)
Definition reprice (productId : ID) (price : Q) (db : Prisma) : Prisma :=
  mkPrisma (cart db) (cartItem db) (<[productId := Product.mk price]> (product db))
           (productVariant db) (promoCode db) (coupon db).

Definition alice : User.t := User.mk "user1" "CUSTOMER".

Definition couponOf (code : string) (discountType : DiscountType)
    (discountValue : Q) (maxUses : option Z) (usesCount : Z)
    (endDate : DateTime) : Coupon.t :=
  Coupon.mk code discountType discountValue None None maxUses usesCount true
            0%Z endDate.

(** Two carts whose totals are up to date: [cart1] holds two lamps at 50,
    [cart2] one book at 30.  The coupons: [SAVE20] and [FIXED50] are open;
    [LAST] has used its single redemption; [SPENT] has used it too and ended
    at time 500; [ZERO] has a usage limit of zero; [FREESHIP] is of the
    free-shipping kind.  The promo code [SUMMER] expired at time 500. *)
Definition couponShop : Prisma :=
  mkPrisma
    {[ "cart1" := Cart.mk (Some "user1") 100 10 10 0 120 None 0 None None;
       "cart2" := Cart.mk (Some "user1") 30 3 10 0 43 None 0 None None ]}
    {[ "item1" := CartItem.mk "cart1" "lamp" None 2 50 100;
       "item2" := CartItem.mk "cart2" "book" None 1 30 30 ]}
    catalog ∅
    {[ "promo1" := PromoCode.mk "WELCOME" 10 true None;
       "promo2" := PromoCode.mk "SUMMER" 5 false (Some 500%Z) ]}
    {[ "coupon1" := couponOf "SAVE20" PERCENTAGE 20 None 0 2000;
       "coupon2" := couponOf "FIXED50" FIXED_AMOUNT 50 None 0 2000;
       "coupon3" := couponOf "LAST" PERCENTAGE 10 (Some 1%Z) 1 2000;
       "coupon4" := couponOf "SPENT" PERCENTAGE 10 (Some 1%Z) 1 500;
       "coupon5" := couponOf "ZERO" PERCENTAGE 10 (Some 0%Z) 0 2000;
       "coupon6" := couponOf "FREESHIP" FREE_SHIPPING 0 None 0 2000 ]}.

(** ** The specification's formulas, for comparison *)

(** The subtotal in the words of the specification: the sum over the items
    of the captured unit price times the quantity. *)
Definition capturedSubtotal (cartId : ID) (db : Prisma) : Q :=
  fold_left
    (λ sum item,
       sum + CartItem.price item.2 * inject_Z (CartItem.quantity item.2))
    (itemsOf cartId db) 0.


(** ** Every mutation of the repository, as one call *)

Inductive Mutation :=
  | AddItem (cartId : ID) (item : CartItemInput)
  | UpdateItem (cartItemId : ID) (quantity : Z)
  | RemoveItem (cartItemId : ID)
  | ClearCart (cartId : ID)
  | ApplyPromoCode (cartId : ID) (code : string)
  | RemovePromoCode (cartId : ID).

Definition run (now : DateTime) (m : Mutation) : M (option CartWithItems) :=
  match m with
  | AddItem cartId item => addItem cartId item
  | UpdateItem cartItemId quantity => updateItem cartItemId quantity
  | RemoveItem cartItemId => removeItem cartItemId
  | ClearCart cartId => clearCart cartId
  | ApplyPromoCode cartId code => applyPromoCode now cartId code
  | RemovePromoCode cartId => removePromoCode cartId
  end.

(** ** Properties of the stored totals *)

Definition balanced (c : Cart.t) : Prop :=
  Cart.total c == Cart.subtotal c - Cart.discount c + Cart.tax c + Cart.shipping c.

Definition zeroed (c : Cart.t) : Prop :=
  Cart.subtotal c == 0 ∧ Cart.discount c == 0 ∧ Cart.tax c == 0
  ∧ Cart.shipping c == 0 ∧ Cart.total c == 0.

(** ** The totals as an invariant of the store *)

(** The row [c'] has the five totals of the row [c]. *)
Definition sameTotals (c c' : Cart.t) : Prop :=
  Cart.subtotal c' = Cart.subtotal c ∧ Cart.discount c' = Cart.discount c
  ∧ Cart.tax c' = Cart.tax c ∧ Cart.shipping c' = Cart.shipping c
  ∧ Cart.total c' = Cart.total c.

(** Every cart of the later table is balanced or has the totals it had in the
    earlier table. *)
Definition totalsKept (carts carts' : gmap string Cart.t) : Prop :=
  ∀ i c', carts' !! i = Some c' →
          balanced c' ∨ ∃ c, carts !! i = Some c ∧ sameTotals c c'.

(** A computation that, whether it returns or throws, leaves every cart
    balanced or with its old totals. *)
Definition keepsTotals {A} (m : M A) : Prop :=
  ∀ db res db', m db = (res, db') → totalsKept (cart db) (cart db').

Definition allBalanced (db : Prisma) : Prop :=
  ∀ i c, cart db !! i = Some c → balanced c.

(** The rows of the cart for one (product, variant) pair. *)
Definition linesOf (cartId productId : ID) (variantId : option ID)
    (db : Prisma) : gmap ID CartItem.t :=
  filter (λ kv, sameLine cartId productId variantId kv.2) (cartItem db).

(** ** Properties of the store as a whole *)

(** Every cart item belongs to a cart of the store (the foreign key behind
    [cartItem.cartId]). *)
Definition wellReferenced (db : Prisma) : Prop :=
  ∀ i r, cartItem db !! i = Some r → is_Some (cart db !! CartItem.cartId r).

(** The errors each mutation of the repository can throw. *)
Definition expectedError (m : Mutation) (e : Error) : Prop :=
  match m with
  | AddItem _ item =>
    e = ProductNotFound (productId item)
    ∨ (∃ v, truthy (variantId item) = Some v ∧ e = VariantNotFound v)
    ∨ e = PrismaRecordNotFound
  | UpdateItem cartItemId _ | RemoveItem cartItemId =>
    e = CartItemNotFound cartItemId
  | ClearCart _ | RemovePromoCode _ => e = PrismaRecordNotFound
  | ApplyPromoCode _ code =>
    e = PromoCodeNotFound code ∨ e = PromoCodeExpired code
    ∨ e = PrismaRecordNotFound
  end.


(** A computation keeps a property of the store, whether it returns or
    throws. *)
Definition preserves {A} (I : Prisma → Prop) (m : M A) : Prop :=
  ∀ db res db', I db → m db = (res, db') → I db'.

(** The values [recalculateCartTotals] computes, by name: the subtotal of the
    cart's lines, the promo code the cart row points to, its discount on a
    subtotal, and the row with its five totals rewritten. *)
Definition subtotalOf (cartId : ID) (db : Prisma) : Q :=
  fold_left (λ sum item, sum + CartItem.total item.2) (itemsOf cartId db) 0.

Definition promoOf (c : Cart.t) (db : Prisma) : option PromoCode.t :=
  Cart.promoCodeId c ≫= λ p, promoCode db !! p.

Definition promoDiscount (promo : option PromoCode.t) (subtotal : Q) : Q :=
  match promo with
  | Some promoCode =>
    if PromoCode.isPercentage promoCode
    then subtotal * (PromoCode.discount promoCode / 100)
    else Qmin (PromoCode.discount promoCode) subtotal
  | None => 0
  end.

Definition recomputed (cartId : ID) (db : Prisma) (c : Cart.t) : Cart.t :=
  let subtotal := subtotalOf cartId db in
  let discount := promoDiscount (promoOf c db) subtotal in
  let tax := (subtotal - discount) * (1 # 10) in
  let shipping := if Qltb 0 subtotal then 10 else 0 in
  Cart.setTotals subtotal discount tax shipping
    (subtotal - discount + tax + shipping) c.

(** A promo code whose discount makes sense: a percentage between 0 and 100,
    or a fixed amount that is not negative. *)
Definition sensiblePromo (p : PromoCode.t) : Prop :=
  0 <= PromoCode.discount p
  ∧ (PromoCode.isPercentage p = true → PromoCode.discount p <= 100).

(** ** CartRepository: finding and creating carts *)

(** What the resolvers pass for a user id, [context.userId]: an id, [null],
    or [undefined].  The server of the transaction subgraph starts from
    [null] and, once the token has verified, stores [decoded.userId]; that is
    [undefined] when the payload has no such field, as with the tokens that
    [generateToken] of the party subgraph signs ([id], [email], [roles]). *)
Inductive OptionalId := undefined | null | given (id : ID).

#[global] Instance OptionalId_eq_dec : EqDecision OptionalId.
Proof. solve_decision. Defined.

(** [userId] where the repository only asks whether it is there
    ([if (userId)], [userId ? ... : undefined]). *)
Definition given_id (userId : OptionalId) : option ID :=
  match userId with
  | given id => Some id
  | undefined | null => None
  end.

(** [where: { userId }]: Prisma leaves a filter out when its value is
    [undefined], so that every cart matches; [null] selects the carts
    without a user. *)
Definition whereUserId (userId : OptionalId) (c : Cart.t) : bool :=
  match userId with
  | undefined => true
  | null => bool_decide (Cart.userId c = None)
  | given id => bool_decide (Cart.userId c = Some id)
  end.

(** [findByUserId(userId)]: [prisma.cart.findFirst({ where: { userId },
    include: ... })]. *)
Definition findByUserId (userId : OptionalId) : M (option CartWithItems) :=
  let* db := get in
  ret (match findRow (whereUserId userId) (cart db) with
       | Some (id, c) =>
         Some (mkCartWithItems id c (itemsOf id db) (promoOf c db))
       | None => None
       end).

(** [30 * 24 * 60 * 60 * 1000], thirty days in milliseconds. *)
Definition thirtyDays : Z := (30 * 24 * 60 * 60 * 1000)%Z.

(** [prisma.cart.create]: the new row gets a fresh id and zero totals; the
    columns the repository does not name ([discountAmount], [couponCode]) are
    empty; [user: { connect: { id } }] throws when the user does not exist.
    The users are not written by any of this code: the set of their ids is the
    argument [users]. *)
Definition cart_create (users : gset ID) (userId : option ID)
    (expiresAt : DateTime) : M CartWithItems :=
  let* db := get in
  if from_option (λ u, bool_decide (u ∈ users)) true userId
  then
    let id := fresh (dom (cart db)) in
    let row := Cart.mk userId 0 0 0 0 0 None 0 None (Some expiresAt) in
    modify (withCart <[id := row]>);;;
    ret (mkCartWithItems id row (itemsOf id db) None)
  else throw PrismaRecordNotFound.

Definition createOrUpdateCart (users : gset ID) (now : DateTime)
    (userId : option ID) : M (option CartWithItems) :=
  let* cart :=
    match truthy userId with
    | Some u =>
      let* db := get in
      ret (findRow (λ c, bool_decide (Cart.userId c = Some u)) (cart db))
    | None => ret None
    end in
  match cart with
  | Some (id, _) => findById id
  | None =>
    let* created := cart_create users (truthy userId) (now + thirtyDays) in
    ret (Some created)
  end.

(** ** Coupons inside their usage limit *)

(** Every coupon with a usage limit (a [maxUses] that is set and not zero)
    has been used at most that often. *)
Definition withinLimits (db : Prisma) : Prop :=
  ∀ i c maxUses,
    coupon db !! i = Some c →
    truthyZ (Coupon.maxUses c) = Some maxUses →
    (Coupon.usesCount c ≤ maxUses)%Z.

(** The total [applyCoupon] computes for a cart: its lines at the current
    catalog prices. *)
Definition catalogTotal (cartId : ID) (db : Prisma) : option Q :=
  cartTotalOf
    ((λ item, (item.2, product db !! CartItem.productId item.2))
     <$> itemsOf cartId db).

(** ** Resolvers of the cart ([cart.resolver.ts])

    A resolver runs in a [try] block whose body throws repository errors and
    GraphQL errors alike; the [catch] turns whatever was thrown into the
    error returned to the client. *)

Module GraphQL.
Inductive Code := NOT_FOUND | FORBIDDEN | UNAUTHENTICATED | INTERNAL_SERVER_ERROR.
Record Error := mk { message : string; code : Code }.
End GraphQL.

Inductive Thrown :=
  | RepositoryError (e : Error)
  | GraphQLError (message : string) (code : GraphQL.Code).

Inductive Outcome (E A : Type) :=
  | Raise (e : E)
  | Done (a : A).
Arguments Raise {E A} e.
Arguments Done {E A} a.

(** Computations over a store [S] that throw values of [E]. *)
Definition Eff (S E A : Type) : Type := S → Outcome E A * S.

Definition yield {S E A} (a : A) : Eff S E A := λ s, (Done a, s).
Definition raise {S E A} (e : E) : Eff S E A := λ s, (Raise e, s).
Definition andThen {S E A B} (m : Eff S E A) (k : A → Eff S E B) : Eff S E B :=
  λ s, match m s with
       | (Done a, s') => k a s'
       | (Raise e, s') => (Raise e, s')
       end.
Definition tryCatch {S E E' A} (body : Eff S E A) (handler : E → Eff S E' A)
    : Eff S E' A :=
  λ s, match body s with
       | (Done a, s') => (Done a, s')
       | (Raise e, s') => handler e s'
       end.

(** A call of a repository method from a resolver. *)
Definition await {A} (m : M A) : Eff Prisma Thrown A :=
  λ db, match m db with
        | (Return a, db') => (Done a, db')
        | (Throw e, db') => (Raise (RepositoryError e), db')
        end.

Notation "'do*' x := m 'in' k" := (andThen m (λ x, k))
  (at level 10, x pattern, m at level 100, k at level 200).

(** What a resolver of the transaction subgraph is told about the caller:
    the bearer token of the request (the empty string when there is none)
    and the user id read from it. *)
Module Context.
Record t := mk { token : string; userId : OptionalId }.
End Context.

(** The payload of the cart mutations. *)
Module CartResponse.
Record t := mk {
  code : string;
  success : bool;
  message : string;
  cart : option CartWithItems
}.
End CartResponse.

(** The input of [addToCart]. *)
Record AddToCartInput := mkAddToCartInput {
  inputCartId : option ID;
  inputProductId : ID;
  inputVariantId : option ID;
  inputQuantity : Z
}.

(** [context.token] as a condition: the empty string is falsy. *)
Definition hasToken (context : Context.t) : bool :=
  negb (String.eqb (Context.token context) "").

(** [cart.userId && (!context.token || cart.userId !== context.userId)] *)
Definition notTheOwner (context : Context.t) (cartUserId : option ID) : bool :=
  match truthy cartUserId with
  | Some owner =>
    negb (hasToken context)
    || negb (bool_decide (given owner = Context.userId context))
  | None => false
  end.

(** The [catch] of every resolver: [throw new GraphQLError(message,
    { extensions: { code: 'INTERNAL_SERVER_ERROR' } })]. *)
Definition failed {A} (message : string) (thrown : Thrown)
    : Eff Prisma GraphQL.Error A :=
  raise (GraphQL.mk message GraphQL.INTERNAL_SERVER_ERROR).

Definition ok (message : string) (cart : option CartWithItems) : CartResponse.t :=
  CartResponse.mk "200" true message cart.

(** [cartRepository.prisma.cartItem.findUnique({ where: { id }, include:
    { cart: true } })] *)
Definition cartItem_findUnique_cart (id : ID)
    : M (option (CartItem.t * option Cart.t)) :=
  let* db := get in
  ret ((λ item, (item, cart db !! CartItem.cartId item)) <$> cartItem db !! id).

(** [cart.id] of the cart a repository call returned; reading [id] of [null]
    is a [TypeError]. *)
Definition idOf (cart : option CartWithItems) : Eff Prisma Thrown ID :=
  match cart with
  | Some cart => yield (id cart)
  | None => raise (RepositoryError TypeError)
  end.

(** The cart of the caller, for [clearCart], [applyPromoCode] and
    [removePromoCode]. *)
Definition callersCart (context : Context.t) : Eff Prisma Thrown ID :=
  if hasToken context
  then
    do* cart := await (findByUserId (Context.userId context)) in
    match cart with
    | None => raise (GraphQLError "User does not have a cart" GraphQL.NOT_FOUND)
    | Some cart => yield (id cart)
    end
  else raise (GraphQLError "Authentication required" GraphQL.UNAUTHENTICATED).

(** The cart item to change, for [updateCartItem] and [removeFromCart]: it
    must exist and its cart must not belong to someone else. *)
Definition ownedItem (context : Context.t) (id : ID) (forbidden : string)
    : Eff Prisma Thrown unit :=
  do* cartItem := await (cartItem_findUnique_cart id) in
  match cartItem with
  | None =>
    raise (GraphQLError (String.append "Cart item with ID "
                           (String.append id " not found")) GraphQL.NOT_FOUND)
  | Some (_, None) => raise (RepositoryError TypeError)
  | Some (_, Some cart) =>
    if notTheOwner context (Cart.userId cart)
    then raise (GraphQLError forbidden GraphQL.FORBIDDEN)
    else yield tt
  end.

Module CartResolvers.

Definition userCart (users : gset ID) (now : DateTime) (context : Context.t)
    : Eff Prisma GraphQL.Error (option CartWithItems) :=
  tryCatch
    (if hasToken context
     then
       do* cart := await (findByUserId (Context.userId context)) in
       match cart with
       | Some cart => yield (Some cart)
       | None => await (createOrUpdateCart users now (given_id (Context.userId context)))
       end
     else raise (GraphQLError "Authentication required" GraphQL.UNAUTHENTICATED))
    (failed "Failed to fetch user cart").

Definition addToCart (users : gset ID) (now : DateTime) (input : AddToCartInput)
    (context : Context.t) : Eff Prisma GraphQL.Error CartResponse.t :=
  tryCatch
    (do* cartId :=
       if hasToken context
       then
         do* cart := await (findByUserId (Context.userId context)) in
         match cart with
         | Some cart => yield (id cart)
         | None =>
           do* cart :=
             await (createOrUpdateCart users now (given_id (Context.userId context))) in
           idOf cart
         end
       else
         match truthy (inputCartId input) with
         | Some cartId =>
           do* cart := await (findById cartId) in
           match cart with
           | None =>
             raise (GraphQLError
                      (String.append "Cart with ID "
                         (String.append cartId " not found"))
                      GraphQL.NOT_FOUND)
           | Some _ => yield cartId
           end
         | None =>
           do* cart := await (createOrUpdateCart users now None) in
           idOf cart
         end in
     do* cart :=
       await (addItem cartId
                (mkCartItemInput (inputProductId input) (inputVariantId input)
                   (inputQuantity input))) in
     yield (ok "Item added to cart successfully" cart))
    (failed "Failed to add item to cart").

Definition updateCartItem (id : ID) (quantity : Z) (context : Context.t)
    : Eff Prisma GraphQL.Error CartResponse.t :=
  tryCatch
    (do* _ := ownedItem context id "Not authorized to update this cart item" in
     do* cart := await (updateItem id quantity) in
     yield (ok "Cart item updated successfully" cart))
    (failed "Failed to update cart item").

Definition removeFromCart (id : ID) (context : Context.t)
    : Eff Prisma GraphQL.Error CartResponse.t :=
  tryCatch
    (do* _ := ownedItem context id "Not authorized to remove this cart item" in
     do* cart := await (removeItem id) in
     yield (ok "Cart item removed successfully" cart))
    (failed "Failed to remove cart item").

Definition clearCart (context : Context.t)
    : Eff Prisma GraphQL.Error CartResponse.t :=
  tryCatch
    (do* cartId := callersCart context in
     do* cart := await (clearCart cartId) in
     yield (ok "Cart cleared successfully" cart))
    (failed "Failed to clear cart").

Definition applyPromoCode (now : DateTime) (code : string) (context : Context.t)
    : Eff Prisma GraphQL.Error CartResponse.t :=
  tryCatch
    (do* cartId := callersCart context in
     do* cart := await (applyPromoCode now cartId code) in
     yield (ok "Promo code applied successfully" cart))
    (failed "Failed to apply promo code").

Definition removePromoCode (context : Context.t)
    : Eff Prisma GraphQL.Error CartResponse.t :=
  tryCatch
    (do* cartId := callersCart context in
     do* cart := await (removePromoCode cartId) in
     yield (ok "Promo code removed successfully" cart))
    (failed "Failed to remove promo code").

(** [Query.cart] *)
Definition cart (id : ID) (context : Context.t)
    : Eff Prisma GraphQL.Error CartWithItems :=
  tryCatch
    (do* cart := await (findById id) in
     match cart with
     | None =>
       raise (GraphQLError
                (String.append "Cart with ID " (String.append id " not found"))
                GraphQL.NOT_FOUND)
     | Some cart =>
       if notTheOwner context (Cart.userId (row cart))
       then raise (GraphQLError "Not authorized to access this cart"
                     GraphQL.FORBIDDEN)
       else yield cart
     end)
    (failed "Failed to fetch cart").

End CartResolvers.

(** ** PaymentRepository ([payment.repository.ts])

    Payments and their refunds live in two tables of their own.  Of a
    payment the repository reads the amount, the currency and the status; of
    a refund it writes every column but the provider's metadata, which no
    code here reads.  Amounts are exact rationals, as the money of a cart;
    the program adds them as binary64 numbers, and a sum of several amounts
    can miss a third amount by the last bit where the rationals agree.  What
    is said below of a sum that equals an amount is therefore said of a
    payment without earlier refunds, where the sum is [0 + amount]. *)

Module Payment.
Record t := mk {
  orderId : ID;
  amount : Q;
  currency : string;
  status : string
}.
Definition setStatus (newStatus : string) (p : t) : t :=
  mk (orderId p) (amount p) (currency p) newStatus.
End Payment.

Module Refund.
Record t := mk {
  paymentId : ID;
  amount : Q;
  currency : string;
  reason : string;
  status : string;
  providerRefundId : string
}.
End Refund.

Module PaymentRepository.

Record Store := mkStore {
  payment : gmap ID Payment.t;
  refund : gmap ID Refund.t
}.

(** The errors of the repository by their messages, and Prisma's error for a
    row that is not there. *)
Inductive Failure :=
  | PaymentNotFound (paymentId : ID)
  | CannotRefund (status : string)
  | RefundExceedsPayment
  | RecordNotFound.

(** A payment as [findUnique] returns it with [include: { refunds: true }]. *)
Record PaymentWithRefunds := mkPaymentWithRefunds {
  id : ID;
  row : Payment.t;
  refunds : list (ID * Refund.t)
}.

Definition refundsOf (paymentId : ID) (s : Store) : list (ID * Refund.t) :=
  map_to_list (filter (λ kv, Refund.paymentId kv.2 = paymentId) (refund s)).

Definition findById (id : ID)
    : Eff Store Failure (option PaymentWithRefunds) :=
  λ s, (Done ((λ p, mkPaymentWithRefunds id p (refundsOf id s))
              <$> payment s !! id), s).

Definition update (id : ID) (data : Payment.t → Payment.t)
    : Eff Store Failure PaymentWithRefunds :=
  λ s, match payment s !! id with
       | None => (Raise RecordNotFound, s)
       | Some p =>
         let s' := mkStore (<[id := data p]> (payment s)) (refund s) in
         (Done (mkPaymentWithRefunds id (data p) (refundsOf id s')), s')
       end.

(** [prisma.refund.create]: the new row gets a fresh id; [payment: { connect:
    { id } }] throws when the payment does not exist. *)
Definition refund_create (data : Refund.t) : Eff Store Failure unit :=
  λ s, if hasRow (payment s) (Refund.paymentId data)
       then (Done tt,
             mkStore (payment s) (<[fresh (dom (refund s)) := data]> (refund s)))
       else (Raise RecordNotFound, s).

Definition createRefund (paymentId : ID) (amount : Q)
    (reason providerRefundId : string)
    : Eff Store Failure PaymentWithRefunds :=
  do* payment := findById paymentId in
  match payment with
  | None => raise (PaymentNotFound paymentId)
  | Some payment =>
    if negb (String.eqb (Payment.status (row payment)) "COMPLETED")
    then raise (CannotRefund (Payment.status (row payment)))
    else
      let totalRefunded :=
        fold_left (λ sum refund, sum + Refund.amount refund.2)
          (refunds payment) 0 + amount in
      if Qltb (Payment.amount (row payment)) totalRefunded
      then raise RefundExceedsPayment
      else
        do* _ := refund_create
                   (Refund.mk paymentId amount (Payment.currency (row payment))
                      reason "COMPLETED" providerRefundId) in
        let newStatus :=
          if Qeq_bool totalRefunded (Payment.amount (row payment))
          then "REFUNDED" else "PARTIALLY_REFUNDED" in
        update paymentId (Payment.setStatus newStatus)
  end.

(** What has been refunded of a payment, and the stores in which no payment
    has been refunded more than was paid. *)
Definition refunded (paymentId : ID) (s : Store) : Q :=
  fold_left (λ sum refund, sum + Refund.amount refund.2)
    (refundsOf paymentId s) 0.


End PaymentRepository.

(** ** Requests that overlap

    An [async] function gives way at every [await]: between two Prisma calls
    of one request the calls of another request can run.  A [Task] is a
    request seen that way, the Prisma call it waits for and what it goes on
    to do with the answer; a call that throws settles the request, since the
    code has no [try] around it. *)

Inductive Task (A : Type) : Type :=
  | Settled (result : Result A)
  | Await (B : Type) (call : M B) (next : B → Task A).
Arguments Settled {A} result.
Arguments Await {A B} call next.


(** A request that runs with no other in between. *)
Fixpoint alone {A} (task : Task A) (db : Prisma) : Result A * Prisma :=
  match task with
  | Settled result => (result, db)
  | Await call next =>
    match call db with
    | (Return b, db') => alone (next b) db'
    | (Throw e, db') => (Throw e, db')
    end
  end.



(** The two writes of a redemption: the coupon's counter is incremented,
    then the cart gets the code and the discount amount. *)
Definition redeemTask (couponId cartId : ID) (code : string)
    (discountAmount : Q) : Task ApplyCouponPayload :=
  Await (coupon_incrementUsesCount couponId) (λ _,
  Await (cart_update cartId (Cart.setCoupon discountAmount (Some code))) (λ _,
  Settled (Return (mkApplyCouponPayload cartId discountAmount code)))).

(** [Mutation.applyCoupon] with its four [await]s: the coupon is read and
    checked, the cart is read and its total checked, and the two writes
    follow. *)
Definition applyCouponTask (now : DateTime) (user : option User.t)
    (code : string) (cartId : ID) : Task ApplyCouponPayload :=
  match user with
  | None => Settled (Throw AuthenticationError)
  | Some _ =>
    Await (coupon_findUnique code) (λ coupon,
    match coupon with
    | None => Settled (Throw CouponNotFound)
    | Some (couponId, coupon) =>
      if negb (Coupon.isActive coupon)
         || Z.ltb (Coupon.endDate coupon) now
         || Z.ltb now (Coupon.startDate coupon)
      then Settled (Throw CouponNotActiveOrExpired)
      else if from_option (λ maxUses, Z.leb maxUses (Coupon.usesCount coupon))
                false (truthyZ (Coupon.maxUses coupon))
      then Settled (Throw CouponUsageLimitReached)
      else
        Await (cart_findUnique_products cartId) (λ cart,
        match cart with
        | None => Settled (Throw (CartNotFound cartId))
        | Some items =>
          match cartTotalOf items with
          | None => Settled (Throw TypeError)
          | Some cartTotal =>
            let redeem :=
              redeemTask couponId cartId code
                (discountAmountOf coupon cartTotal) in
            match truthyQ (Coupon.minPurchase coupon) with
            | Some minPurchase =>
              if Qltb cartTotal minPurchase
              then Settled (Throw (MinimumPurchaseRequired minPurchase))
              else redeem
            | None => redeem
            end
          end
        end)
    end)
  end.

(** ** More small stores *)

(** [couponShop] after [cart1] has redeemed the coupon [SAVE20] and taken
    the promo code [WELCOME]. *)
Definition redeemedShop : Prisma :=
  (applyPromoCode 0 "cart1" "WELCOME"
     (applyCoupon 1000 (Some alice) "SAVE20" "cart1" couponShop).2).2.


(** [couponShop] with one more coupon: half off, at most 30, from a purchase
    of 20; two of its five redemptions are used. *)
Definition cappedShop : Prisma :=
  withCoupon
    <["coupon7" := Coupon.mk "CAPPED" PERCENTAGE 50 (Some 20) (Some 30)
                     (Some 5%Z) 2 true 0%Z 2000%Z]>
    couponShop.

Definition customers : gset ID := {[ "user1"; "user2" ]}.

(** The owner of the carts of [couponShop], another customer, and a caller
    who sent no token. *)
Definition owner : Context.t := Context.mk "token1" (given "user1").
Definition stranger : Context.t := Context.mk "token2" (given "user2").
Definition anonymous : Context.t := Context.mk "" null.

(** A caller whose token verifies and has no [userId] in its payload. *)
Definition holder : Context.t := Context.mk "token3" undefined.

(** One payment that can be refunded and one that is still pending. *)
Definition ledger : PaymentRepository.Store :=
  PaymentRepository.mkStore
    {[ "pay1" := Payment.mk "order1" 100 "USD" "COMPLETED";
       "pay2" := Payment.mk "order2" 40 "USD" "PENDING" ]}
    ∅.



(** * Proofs *)

(** ** Running a computation step by step *)

Lemma bind_Return {A B} (m : M A) (k : A → M B) db b db' :
  bind m k db = (Return b, db') →
  ∃ a db1, m db = (Return a, db1) ∧ k a db1 = (Return b, db').
Proof.
  unfold bind. destruct (m db) as [[e|a] db1]; [discriminate | eauto].
Qed.

Lemma bind_Throw {A B} (m : M A) (k : A → M B) db e db' :
  bind m k db = (Throw e, db') →
  m db = (Throw e, db')
  ∨ ∃ a db1, m db = (Return a, db1) ∧ k a db1 = (Throw e, db').
Proof.
  unfold bind. destruct (m db) as [[e1|a] db1]; [left | right; eauto].
  congruence.
Qed.

Lemma cart_update_run id data db :
  cart_update id data db =
  match cart db !! id with
  | None => (Throw PrismaRecordNotFound, db)
  | Some c => (Return tt, withCart <[id := data c]> db)
  end.
Proof. unfold cart_update, bind, get. by destruct (cart db !! id). Qed.

Lemma findById_run id db :
  findById id db =
  (Return (match cart db !! id with
           | None => None
           | Some c => Some (mkCartWithItems id c (itemsOf id db)
                               (Cart.promoCodeId c ≫= λ p, promoCode db !! p))
           end), db).
Proof. reflexivity. Qed.

(** A successful [recalculateCartTotals] rewrites the five totals of the cart
    and nothing else; the stored total is the sum of the other four. *)
Lemma recalculateCartTotals_Return cartId db db' :
  recalculateCartTotals cartId db = (Return tt, db') →
  ∃ c subtotal discount,
    cart db !! cartId = Some c
    ∧ db' = withCart
        <[cartId :=
            Cart.setTotals subtotal discount ((subtotal - discount) * (1 # 10))
              (if Qltb 0 subtotal then 10 else 0)
              (subtotal - discount + (subtotal - discount) * (1 # 10)
               + (if Qltb 0 subtotal then 10 else 0)) c]> db.
Proof.
  unfold recalculateCartTotals, cart_findUnique, cart_update.
  unfold bind, get, ret, modify, throw. cbn.
  destruct (cart db !! cartId) as [c|] eqn:Hc; [|discriminate].
  cbn. rewrite Hc. intros [= <-]. eauto.
Qed.

Lemma recalculateCartTotals_Throw cartId db e db' :
  recalculateCartTotals cartId db = (Throw e, db') →
  db' = db ∧ cart db !! cartId = None.
Proof.
  unfold recalculateCartTotals, cart_findUnique, cart_update.
  unfold bind, get, ret, modify, throw. cbn.
  destruct (cart db !! cartId) as [c|] eqn:Hc; cbn.
  - rewrite Hc. discriminate.
  - by intros [= _ <-].
Qed.

Lemma recalculate_then_find cartId db r db' :
  (recalculateCartTotals cartId;;; findById cartId) db = (Return r, db') →
  ∃ v, r = Some v ∧ id v = cartId ∧ cart db' !! cartId = Some (row v)
       ∧ balanced (row v).
Proof.
  intros ([] & db1 & Hrec & Hfind)%bind_Return.
  apply recalculateCartTotals_Return in Hrec as (c & st & d & Hc & ->).
  rewrite findById_run in Hfind. cbn in Hfind.
  rewrite lookup_insert_eq in Hfind. injection Hfind as <- <-.
  eexists. split; [reflexivity|]. cbn. rewrite lookup_insert_eq.
  split; [reflexivity|]. split; [reflexivity|].
  unfold balanced. cbn. reflexivity.
Qed.

(** Peel one successful [bind] off the hypothesis [H]. *)
Ltac step H :=
  let a := fresh "a" in
  let db := fresh "db" in
  let Ha := fresh "Hstep" in
  apply bind_Return in H as (a & db & Ha & H).

(** Split the [match]es of [H] and drop the branches that throw. *)
Ltac branches H :=
  repeat (case_match; try (unfold throw in H; discriminate H)).

Lemma clearCart_zeroed cartId db r db' :
  clearCart cartId db = (Return r, db') →
  ∃ v, r = Some v ∧ id v = cartId ∧ cart db' !! cartId = Some (row v)
       ∧ zeroed (row v).
Proof.
  unfold clearCart. intros H. step H. step H.
  rewrite cart_update_run in Hstep0.
  destruct (cart db0 !! cartId) as [c|] eqn:Hc; [|discriminate].
  injection Hstep0 as _ <-. rewrite findById_run in H. cbn in H.
  rewrite lookup_insert_eq in H. injection H as <- <-.
  eexists. split; [reflexivity|]. cbn. rewrite lookup_insert_eq.
  split; [reflexivity|]. split; [reflexivity|].
  unfold zeroed. cbn. by repeat split.
Qed.

Lemma zeroed_balanced c : zeroed c → balanced c.
Proof.
  unfold zeroed, balanced. intros (-> & -> & -> & -> & ->). reflexivity.
Qed.

(** C1.  After each mutation of the cart repository ([addItem],
    [updateItem], [removeItem], [clearCart], [applyPromoCode],
    [removePromoCode]) that returns, the cart it returns is the stored one and
    its total equals subtotal - discount + tax + shipping; after [clearCart]
    the subtotal, discount, tax, shipping and total are all zero. *)
Theorem totals_balanced_after_mutation now m db r db' :
  run now m db = (Return r, db') →
  ∃ v, r = Some v ∧ cart db' !! id v = Some (row v) ∧ balanced (row v)
       ∧ (∀ cartId, m = ClearCart cartId → zeroed (row v)).
Proof.
  intros H.
  assert (Hmain : (∃ cartId,
            m = ClearCart cartId ∧ clearCart cartId db = (Return r, db'))
          ∨ ((∀ cartId, m ≠ ClearCart cartId)
             ∧ ∃ cartId db1,
                 (recalculateCartTotals cartId;;; findById cartId) db1
                 = (Return r, db'))).
  { destruct m as [cartId item|cartItemId q|cartItemId|cartId|cartId code|cartId];
      cbn [run] in H; [right|right|right|left|right|right];
      try (split; [discriminate|]); eauto.
    - unfold addItem in H. step H. branches H; step H; step H; eauto.
    - unfold updateItem in H. step H. branches H. step H. eauto.
    - unfold removeItem in H. step H. branches H. step H. eauto.
    - unfold applyPromoCode in H. step H. branches H. step H. eauto.
    - unfold removePromoCode in H. step H. eauto. }
  destruct Hmain as [(cartId & -> & Hclear)|(Hne & cartId & db1 & Hrec)].
  - apply clearCart_zeroed in Hclear as (v & -> & <- & Hc & Hz).
    exists v. eauto using zeroed_balanced.
  - apply recalculate_then_find in Hrec as (v & -> & <- & Hc & Hb).
    exists v. split; [done|]. split; [done|]. split; [done|].
    intros c ->. by destruct (Hne c).
Qed.

(** ** The totals are never left stale *)

Lemma sameTotals_balanced c c' : sameTotals c c' → balanced c → balanced c'.
Proof.
  unfold balanced. intros (-> & -> & -> & -> & ->). done.
Qed.

Lemma totalsKept_refl carts : totalsKept carts carts.
Proof. intros i c Hc. right. exists c. by repeat split. Qed.

Lemma totalsKept_trans carts1 carts2 carts3 :
  totalsKept carts1 carts2 → totalsKept carts2 carts3 →
  totalsKept carts1 carts3.
Proof.
  intros H12 H23 i c3 Hc3.
  destruct (H23 i c3 Hc3) as [?|(c2 & Hc2 & Hs23)]; [by left|].
  destruct (H12 i c2 Hc2) as [Hb|(c1 & Hc1 & Hs12)].
  - left. by apply (sameTotals_balanced c2).
  - right. exists c1. split; [done|].
    destruct Hs12 as (? & ? & ? & ? & ?), Hs23 as (? & ? & ? & ? & ?).
    repeat split; congruence.
Qed.

Lemma keepsTotals_untouched {A} (m : M A) :
  (∀ db res db', m db = (res, db') → cart db' = cart db) → keepsTotals m.
Proof. intros H db res db' ->%H. apply totalsKept_refl. Qed.

Lemma keepsTotals_ret {A} (a : A) : keepsTotals (ret a).
Proof. apply keepsTotals_untouched. by intros db res db' [= _ <-]. Qed.

Lemma keepsTotals_throw {A} e : keepsTotals (@throw A e).
Proof. apply keepsTotals_untouched. by intros db res db' [= _ <-]. Qed.

Lemma keepsTotals_bind {A B} (m : M A) (k : A → M B) :
  keepsTotals m → (∀ a, keepsTotals (k a)) → keepsTotals (bind m k).
Proof.
  intros Hm Hk db res db'. unfold bind.
  destruct (m db) as [[e|a] db1] eqn:Hrun.
  - intros [= _ <-]. by apply (Hm _ _ _ Hrun).
  - intros Hrun'. eapply totalsKept_trans; [by apply (Hm _ _ _ Hrun)|].
    by apply (Hk _ _ _ _ Hrun').
Qed.

Lemma keepsTotals_reads :
  (∀ id variantId, keepsTotals (product_findUnique id variantId))
  ∧ (∀ cartId productId variantId,
       keepsTotals (cartItem_findFirst cartId productId variantId))
  ∧ (∀ id, keepsTotals (cartItem_findUnique id))
  ∧ (∀ id, keepsTotals (findById id))
  ∧ (∀ code, keepsTotals (promoCode_findUnique code)).
Proof.
  repeat split; intros; apply keepsTotals_untouched;
    by intros db res db' [= _ <-].
Qed.

Lemma keepsTotals_item_writes :
  (∀ id quantity total, keepsTotals (cartItem_update id quantity total))
  ∧ (∀ cartId productId variantId quantity price total,
       keepsTotals
         (cartItem_create cartId productId variantId quantity price total))
  ∧ (∀ id, keepsTotals (cartItem_delete id))
  ∧ (∀ cartId, keepsTotals (cartItem_deleteMany cartId)).
Proof.
  repeat split; intros; apply keepsTotals_untouched; intros db res db'.
  - unfold cartItem_update, bind, get, modify. cbn.
    by destruct (cartItem db !! id0); intros [= _ <-].
  - unfold cartItem_create, bind, get, modify. cbn.
    by destruct (_ && _); intros [= _ <-].
  - unfold cartItem_delete, bind, get, modify. cbn.
    by destruct (cartItem db !! id0); intros [= _ <-].
  - by intros [= _ <-].
Qed.

Lemma keepsTotals_cart_update id data :
  (∀ c, balanced (data c) ∨ sameTotals c (data c)) →
  keepsTotals (cart_update id data).
Proof.
  intros Hdata db res db'. rewrite cart_update_run.
  destruct (cart db !! id) as [c|] eqn:Hc; intros [= _ <-];
    [|apply totalsKept_refl].
  intros i c'. cbn. destruct (decide (i = id)) as [->|Hne].
  - rewrite lookup_insert_eq. intros [= <-].
    destruct (Hdata c); [by left | right; eauto].
  - rewrite lookup_insert_ne by done. apply totalsKept_refl.
Qed.

Lemma keepsTotals_recalculate cartId :
  keepsTotals (recalculateCartTotals cartId).
Proof.
  intros db [e|[]] db' Hrun.
  - apply recalculateCartTotals_Throw in Hrun as [-> _].
    apply totalsKept_refl.
  - apply recalculateCartTotals_Return in Hrun as (c & st & d & Hc & ->).
    intros i c'. cbn. destruct (decide (i = cartId)) as [->|Hne].
    + rewrite lookup_insert_eq. intros [= <-]. left. unfold balanced. cbn.
      reflexivity.
    + rewrite lookup_insert_ne by done. apply totalsKept_refl.
Qed.

(** Walk through a method: each Prisma call keeps the totals, and so does
    their sequence. *)
Ltac keeps_totals :=
  repeat first
    [ apply keepsTotals_ret
    | apply keepsTotals_throw
    | apply keepsTotals_recalculate
    | apply keepsTotals_reads
    | apply keepsTotals_item_writes
    | apply keepsTotals_cart_update; intros ?;
      first [ by (left; unfold balanced; cbn)
            | by (right; repeat split) ]
    | apply keepsTotals_bind
    | match goal with |- ∀ _, _ => intros ? end
    | case_match ].

Lemma keepsTotals_run now m : keepsTotals (run now m).
Proof.
  destruct m; cbn [run].
  - unfold addItem. keeps_totals.
  - unfold updateItem. keeps_totals.
  - unfold removeItem. keeps_totals.
  - unfold clearCart. keeps_totals.
  - unfold applyPromoCode. keeps_totals.
  - unfold removePromoCode. keeps_totals.
Qed.

(** X29.  If every cart is balanced before a mutation, every cart is balanced
    after it, whether it returns or throws. *)
Lemma balanced_is_invariant now m db res db' :
  allBalanced db → run now m db = (res, db') → allBalanced db'.
Proof.
  intros Hall Hrun i c' Hc'.
  destruct (keepsTotals_run now m db res db' Hrun i c' Hc')
    as [?|(c & Hc & Hsame)]; [done|].
  apply (sameTotals_balanced c); [done|]. by apply (Hall i).
Qed.

(** ** Looking rows up *)

Lemma findRow_Some {A} (P : A → bool) (table : gmap ID A) i x :
  findRow P table = Some (i, x) → table !! i = Some x ∧ P x = true.
Proof.
  unfold findRow. intros H.
  destruct (list_find _ _) as [[n [j y]]|] eqn:Hfind; [|discriminate].
  injection H as -> ->.
  apply list_find_Some in Hfind as (Hn & HP & _).
  split; [|done]. apply elem_of_map_to_list, list_elem_of_lookup. eauto.
Qed.

Lemma findRow_None {A} (P : A → bool) (table : gmap ID A) i x :
  findRow P table = None → table !! i = Some x → P x = false.
Proof.
  unfold findRow. intros H Hi.
  destruct (list_find _ _) as [?|] eqn:Hfind; [discriminate|].
  rewrite list_find_None, Forall_forall in Hfind.
  apply elem_of_map_to_list, list_elem_of_In in Hi. apply Hfind in Hi.
  cbn in Hi.
  by destruct (P x).
Qed.

Lemma findRow_absent {A} (P : A → bool) (table : gmap ID A) :
  (∀ i x, table !! i = Some x → P x = false) → findRow P table = None.
Proof.
  intros H. destruct (findRow P table) as [[i x]|] eqn:Hfind; [|done].
  apply findRow_Some in Hfind as [Hi HP]. apply H in Hi. congruence.
Qed.

(** ** [addItem] on a product that exists *)

Lemma addItem_priced cartId item db p :
  product db !! productId item = Some p →
  (∀ v, truthy (variantId item) = Some v →
        variantsOf db (productId item) v ≠ []) →
  ∃ price,
    addItem cartId item db =
    (match findRow (λ r, bool_decide (sameLine cartId (productId item)
                                        (truthy (variantId item)) r))
             (cartItem db) with
     | Some (existingId, existingItem) =>
       cartItem_update existingId
         (CartItem.quantity existingItem + quantity item)%Z
         (inject_Z (CartItem.quantity existingItem + quantity item) * price)
     | None =>
       cartItem_create cartId (productId item) (truthy (variantId item))
         (quantity item) price (inject_Z (quantity item) * price)
     end;;; recalculateCartTotals cartId;;; findById cartId) db.
Proof.
  intros Hp Hvar. unfold addItem, product_findUnique, cartItem_findFirst.
  unfold bind at 1 2. unfold get, ret. rewrite Hp.
  destruct (truthy (variantId item)) as [v|] eqn:Hv.
  - specialize (Hvar v eq_refl).
    destruct (variantsOf db (productId item) v) as [|pv ?]; [done|].
    exists (ProductVariant.price pv). unfold bind. cbn.
    by destruct (findRow _ _) as [[??]|].
  - exists (Product.price p). unfold bind. cbn.
    by destruct (findRow _ _) as [[??]|].
Qed.

Lemma recalculateCartTotals_found cartId db c :
  cart db !! cartId = Some c →
  ∃ c', recalculateCartTotals cartId db
        = (Return tt, withCart <[cartId := c']> db).
Proof.
  intros Hc. unfold recalculateCartTotals, cart_findUnique, cart_update.
  unfold bind, get, ret, modify, throw. cbn. rewrite Hc. cbn. rewrite Hc.
  eauto.
Qed.

(** Writing an item and recomputing the totals of an existing cart. *)
Lemma write_then_recalculate (w : M unit) cartId db db1 c :
  w db = (Return tt, db1) →
  cart db1 !! cartId = Some c →
  ∃ v c',
    (w;;; recalculateCartTotals cartId;;; findById cartId) db
    = (Return (Some v), withCart <[cartId := c']> db1).
Proof.
  intros Hw Hc. unfold bind at 1. rewrite Hw. unfold bind at 1.
  destruct (recalculateCartTotals_found _ _ _ Hc) as [c' ->].
  rewrite findById_run. cbn. rewrite lookup_insert_eq. eauto.
Qed.

Lemma variantsOf_found db productId vid :
  (∀ v, truthy vid = Some v →
        ∃ pv, productVariant db !! v = Some pv
              ∧ ProductVariant.productId pv = productId) →
  ∀ v, truthy vid = Some v → variantsOf db productId v ≠ [].
Proof.
  intros H v Hv. destruct (H v Hv) as (pv & Hpv & Hid).
  unfold variantsOf. rewrite Hpv, Hid, String.eqb_refl. done.
Qed.

Lemma cartItem_create_run cartId productId variantId quantity price total db :
  is_Some (cart db !! cartId) →
  is_Some (product db !! productId) →
  (∀ v, variantId = Some v → is_Some (productVariant db !! v)) →
  cartItem_create cartId productId variantId quantity price total db
  = (Return tt,
     withCartItem
       <[fresh (dom (cartItem db)) :=
           CartItem.mk cartId productId variantId quantity price total]> db).
Proof.
  intros Hc Hp Hv. unfold cartItem_create, bind, get, modify. cbn.
  assert (hasRow (cart db) cartId && hasRow (product db) productId
          && from_option (hasRow (productVariant db)) true variantId = true)
    as ->; [|done].
  unfold hasRow. rewrite !bool_decide_eq_true_2 by done.
  destruct variantId as [v|]; cbn; [|done].
  apply bool_decide_eq_true_2. eauto.
Qed.

Lemma cartItem_update_run i quantity total r db :
  cartItem db !! i = Some r →
  cartItem_update i quantity total db
  = (Return tt,
     withCartItem
       <[i := CartItem.mk (CartItem.cartId r) (CartItem.productId r)
                (CartItem.variantId r) quantity (CartItem.price r) total]> db).
Proof.
  intros Hi. unfold cartItem_update, bind, get, modify. cbn. by rewrite Hi.
Qed.

(** C3.  On a cart that has no row for (productId, variantId), two calls of
    [addItem] for that pair with quantities q1 then q2 both return, and the
    cart then holds exactly one row for the pair, whose quantity is q1 + q2;
    the second call creates no row. *)
Theorem addItem_twice_one_line db cartId pid vid q1 q2 :
  is_Some (cart db !! cartId) →
  is_Some (product db !! pid) →
  (∀ v, truthy vid = Some v →
        ∃ pv, productVariant db !! v = Some pv
              ∧ ProductVariant.productId pv = pid) →
  linesOf cartId pid (truthy vid) db = ∅ →
  ∃ r1 db1 r2 db2 i line,
    addItem cartId (mkCartItemInput pid vid q1) db = (Return r1, db1)
    ∧ addItem cartId (mkCartItemInput pid vid q2) db1
      = (Return r2, db2)
    ∧ linesOf cartId pid (truthy vid) db2 = {[ i := line ]}
    ∧ CartItem.quantity line = (q1 + q2)%Z
    ∧ dom (cartItem db2) = dom (cartItem db1).
Proof.
  intros [c Hc] [p Hp] Hvar Hnone.
  pose proof (variantsOf_found _ _ _ Hvar) as Hvs.
  set (f := fresh (dom (cartItem db))).
  (* the first call creates the row *)
  destruct (addItem_priced cartId (mkCartItemInput pid vid q1)
              db p Hp Hvs) as [price1 Hadd1].
  cbn [productId variantId quantity] in Hadd1.
  rewrite findRow_absent in Hadd1; last first.
  { intros i x Hi. apply bool_decide_eq_false_2. intros Hx.
    assert (linesOf cartId pid (truthy vid) db !! i = Some x) as Hl
      by (by apply map_lookup_filter_Some).
    by rewrite Hnone in Hl. }
  set (row1 := CartItem.mk cartId pid (truthy vid) q1 price1
                 (inject_Z q1 * price1)) in *.
  destruct (write_then_recalculate
              (cartItem_create cartId pid (truthy vid) q1 price1
                 (inject_Z q1 * price1))
              cartId db (withCartItem <[f := row1]> db) c)
    as (v1 & c1 & Hrun1).
  { apply cartItem_create_run; eauto.
    intros v Hv. destruct (Hvar v Hv) as (pv & Hpv & _). eauto. }
  { done. }
  rewrite Hrun1 in Hadd1. clear Hrun1.
  set (db1 := withCart <[cartId := c1]> (withCartItem <[f := row1]> db)) in *.
  (* the second call finds that row and updates it *)
  destruct (addItem_priced cartId (mkCartItemInput pid vid q2)
              db1 p Hp Hvs) as [price2 Hadd2].
  cbn [productId variantId quantity] in Hadd2.
  assert (cartItem db1 = <[f := row1]> (cartItem db)) as Hitems by done.
  rewrite Hitems in Hadd2.
  destruct (findRow _ _) as [[j ex]|] eqn:Hfind in Hadd2; last first.
  { eapply (findRow_None _ _ f row1) in Hfind; [|apply lookup_insert_eq].
    apply bool_decide_eq_false_1 in Hfind. destruct Hfind. by repeat split. }
  apply findRow_Some in Hfind as [Hj Hex%bool_decide_eq_true_1].
  assert (j = f ∧ ex = row1) as [-> ->].
  { destruct (decide (j = f)) as [->|Hne].
    - rewrite lookup_insert_eq in Hj. by injection Hj.
    - rewrite lookup_insert_ne in Hj by done.
      assert (linesOf cartId pid (truthy vid) db !! j = Some ex)
        as Hl by (by apply map_lookup_filter_Some).
      by rewrite Hnone in Hl. }
  set (row2 := CartItem.mk cartId pid (truthy vid) (q1 + q2)%Z
                 price1 (inject_Z (q1 + q2) * price2)).
  destruct (write_then_recalculate
              (cartItem_update f (q1 + q2)%Z (inject_Z (q1 + q2) * price2))
              cartId db1 (withCartItem <[f := row2]> db1) c1)
    as (v2 & c2 & Hrun2).
  { apply (cartItem_update_run f _ _ row1). rewrite Hitems.
    apply lookup_insert_eq. }
  { apply lookup_insert_eq. }
  cbn [CartItem.quantity row1] in Hadd2. rewrite Hrun2 in Hadd2. clear Hrun2.
  eexists _, _, _, _, f, row2.
  split; [exact Hadd1|]. split; [exact Hadd2|].
  split; [|split; [done|]].
  - unfold linesOf. cbn. rewrite insert_insert_eq.
    rewrite map_filter_insert_True by (by repeat split).
    fold (linesOf cartId pid (truthy vid) db).
    by rewrite Hnone, insert_empty.
  - cbn. by rewrite insert_insert_eq, !dom_insert_L.
Qed.

(** ** Rows that are already present *)

Lemma recalculate_then_find_items cartId db res db' :
  (recalculateCartTotals cartId;;; findById cartId) db = (res, db') →
  cartItem db' = cartItem db.
Proof.
  unfold bind. destruct (recalculateCartTotals cartId db) as [[e|[]] db1] eqn:H.
  - apply recalculateCartTotals_Throw in H as [-> _]. by intros [= _ <-].
  - apply recalculateCartTotals_Return in H as (c & st & d & _ & ->).
    rewrite findById_run. by intros [= _ <-].
Qed.

(** When the cart already holds a row for the pair, [addItem] creates no
    row, whatever it returns. *)
Lemma addItem_present_keeps_rows cartId item db i r res db' :
  cartItem db !! i = Some r →
  sameLine cartId (productId item) (truthy (variantId item)) r →
  addItem cartId item db = (res, db') →
  dom (cartItem db') = dom (cartItem db).
Proof.
  intros Hi Hr.
  assert (∀ price,
    (let* existingItem :=
       cartItem_findFirst cartId (productId item) (truthy (variantId item))
     in match existingItem with
        | Some (existingId, existingItem) =>
          cartItem_update existingId
            (CartItem.quantity existingItem + quantity item)%Z
            (inject_Z (CartItem.quantity existingItem + quantity item) * price)
        | None =>
          cartItem_create cartId (productId item) (truthy (variantId item))
            (quantity item) price (inject_Z (quantity item) * price)
        end;;; recalculateCartTotals cartId;;; findById cartId) db = (res, db') →
    dom (cartItem db') = dom (cartItem db)) as Hwrite.
  { intros price. unfold cartItem_findFirst. unfold bind at 1 2 3.
    unfold get, ret.
    destruct (findRow _ _) as [[j ex]|] eqn:Hfind; last first.
    { eapply findRow_None in Hfind; [|exact Hi].
      by apply bool_decide_eq_false_1 in Hfind. }
    apply findRow_Some in Hfind as [Hj _].
    rewrite (cartItem_update_run j _ _ ex) by done.
    intros ->%recalculate_then_find_items. cbn.
    apply dom_insert_lookup_L. eauto. }
  unfold addItem, product_findUnique. unfold bind at 1 2. unfold get, ret.
  destruct (product db !! productId item) as [p|]; [|by intros [= _ <-]].
  destruct (truthy (variantId item)) as [v|].
  - destruct (variantsOf db (productId item) v) as [|pv ?];
      [by intros [= _ <-] | apply Hwrite].
  - apply Hwrite.
Qed.

(** ** Shipping *)

Lemma Qltb_lt a b : Qltb a b = true ↔ a < b.
Proof. unfold Qltb. rewrite Qlt_alt. by destruct (a ?= b). Qed.



(** Above the threshold the flat fee is still charged: three lamps at 50. *)
Lemma shipping_above_threshold :
  ∃ v db',
    addItem "cart1" (mkCartItemInput "lamp" None 3) shop = (Return (Some v), db')
    ∧ Cart.subtotal (row v) == 150 ∧ Cart.shipping (row v) == 10.
Proof. eexists _, _. split; [vm_compute; reflexivity|]. by vm_compute. Qed.

(** ** Captured prices *)

(** C2.  One mug is added at the catalog price 10, the catalog price becomes
    20, and one more mug is added: the row keeps the captured price 10 with
    quantity 2, but its total and the subtotal of the cart are 40, not
    10 * 2. *)
Theorem subtotal_after_price_change :
  ∃ r1 db1 r2 db2 c,
    addItem "cart1" (mkCartItemInput "mug" None 1) shop = (Return r1, db1)
    ∧ addItem "cart1" (mkCartItemInput "mug" None 1) (reprice "mug" 20 db1)
      = (Return r2, db2)
    ∧ cart db2 !! "cart1" = Some c
    ∧ Cart.subtotal c == 40
    ∧ capturedSubtotal "cart1" db2 == 20
    ∧ ¬ Cart.subtotal c == capturedSubtotal "cart1" db2.
Proof.
  eexists _, _, _, _, _. split; [vm_compute; reflexivity|].
  split; [vm_compute; reflexivity|]. split; [vm_compute; reflexivity|].
  by vm_compute.
Qed.

Lemma fold_left_Qplus_ext {A} (f g : A → Q) (l : list A) (a b : Q) :
  a == b →
  Forall (λ x, f x == g x) l →
  fold_left (λ sum x, sum + f x) l a == fold_left (λ sum x, sum + g x) l b.
Proof.
  intros Hab Hl. revert a b Hab.
  induction Hl as [|x l Hx _ IH]; intros a b Hab; cbn; [done|].
  apply IH. by rewrite Hab, Hx.
Qed.

(** X30.  When every row of the cart has [total] equal to [quantity * price],
    the subtotal that [recalculateCartTotals] stores is the sum of the
    captured prices times the quantities. [addItem] on a row that is present
    is the one write that can break the premise: it computes [total] from the
    current catalog price and leaves [price] as captured. *)
Lemma subtotal_of_consistent_rows cartId db db' :
  recalculateCartTotals cartId db = (Return tt, db') →
  (∀ i r, cartItem db !! i = Some r →
          CartItem.total r == inject_Z (CartItem.quantity r) * CartItem.price r) →
  ∃ c, cart db' !! cartId = Some c
       ∧ Cart.subtotal c == capturedSubtotal cartId db'.
Proof.
  intros Hrun Hrows.
  unfold recalculateCartTotals, cart_findUnique, cart_update in Hrun.
  unfold bind, get, ret, modify, throw in Hrun. cbn in Hrun.
  destruct (cart db !! cartId) as [c|] eqn:Hc; [|discriminate].
  cbn in Hrun. rewrite Hc in Hrun. injection Hrun as <-.
  eexists. split; [apply lookup_insert_eq|]. cbn.
  unfold capturedSubtotal, itemsOf. cbn.
  apply (fold_left_Qplus_ext (λ item, CartItem.total item.2)
           (λ item, CartItem.price item.2 * inject_Z (CartItem.quantity item.2)));
    [reflexivity|].
  apply Forall_forall. intros [i r] Hin%list_elem_of_In.
  apply elem_of_map_to_list, map_lookup_filter_Some in Hin as [Hi _].
  cbn. rewrite (Hrows i r Hi). apply Qmult_comm.
Qed.

(** ** Quantities *)

(** C8.  [addItem] with quantity -1 returns and leaves a row of quantity -1
    in the cart, whose subtotal becomes -10. *)
Theorem addItem_negative_quantity :
  ∃ v db' i line,
    addItem "cart1" (mkCartItemInput "mug" None (-1)) shop
    = (Return (Some v), db')
    ∧ itemsOf "cart1" shop = []
    ∧ itemsOf "cart1" db' = [(i, line)]
    ∧ CartItem.quantity line = (-1)%Z
    ∧ Cart.subtotal (row v) == -10.
Proof.
  eexists _, _, _, _. split; [vm_compute; reflexivity|].
  split; [vm_compute; reflexivity|]. split; [vm_compute; reflexivity|].
  by vm_compute.
Qed.

(** ** Coupons *)

(** C4.  [FIXED50], a fixed amount of 50, applied to the cart of one book at
    30: the discount stored is 50, more than the subtotal. *)
Theorem fixed_amount_exceeds_subtotal :
  ∃ payload db' c,
    applyCoupon 1000 (Some alice) "FIXED50" "cart2" couponShop
    = (Return payload, db')
    ∧ cart db' !! "cart2" = Some c
    ∧ capturedSubtotal "cart2" db' == 30
    ∧ Cart.subtotal c == 30
    ∧ Cart.discountAmount c == 50
    ∧ payloadDiscountAmount payload == 50
    ∧ ¬ Cart.discountAmount c <= Cart.subtotal c.
Proof.
  eexists _, _, _. split; [vm_compute; reflexivity|].
  split; [vm_compute; reflexivity|]. by vm_compute.
Qed.

(** What does hold of the discount: a percentage is capped by a non-zero
    [maxDiscount], and the promo codes of the repository never take more than
    the subtotal off as a fixed amount. *)
Lemma percentage_capped coupon cartTotal maxDiscount :
  Coupon.discountType coupon = PERCENTAGE →
  Coupon.maxDiscount coupon = Some maxDiscount →
  ¬ maxDiscount == 0 →
  discountAmountOf coupon cartTotal <= maxDiscount.
Proof.
  intros Htype Hmax Hnz. unfold discountAmountOf. rewrite Htype, Hmax. cbn.
  destruct (Qeq_bool maxDiscount 0) eqn:Hz.
  { by apply Qeq_bool_iff in Hz. }
  destruct (Qltb _ _) eqn:Hlt; [apply Qle_refl|].
  apply Qnot_lt_le. intros Hgt%Qltb_lt. congruence.
Qed.

Lemma applyCoupon_limit_check now user code cartId db
    couponId c :
  findRow (λ c, String.eqb (Coupon.code c) code) (coupon db)
  = Some (couponId, c) →
  from_option (λ maxUses, Z.leb maxUses (Coupon.usesCount c)) false
    (truthyZ (Coupon.maxUses c)) = true →
  ∃ e, applyCoupon now user code cartId db = (Throw e, db)
       ∧ (is_Some user →
          Coupon.isActive c = true →
          (Coupon.startDate c ≤ now ≤ Coupon.endDate c)%Z →
          e = CouponUsageLimitReached).
Proof.
  intros Hfind Hlimit. unfold applyCoupon.
  destruct user as [u|]; [|eexists; split; [reflexivity|]; by intros []].
  unfold coupon_findUnique. unfold bind at 1. unfold get.
  unfold bind at 1. unfold ret. rewrite Hfind, Hlimit.
  destruct (negb _ || _ || _) eqn:Hdates.
  - eexists. split; [reflexivity|]. intros _ Hactive [Hstart Hend].
    rewrite Hactive in Hdates. cbn in Hdates.
    apply orb_true_iff in Hdates as [Hd|Hd]; apply Z.ltb_lt in Hd; lia.
  - eauto.
Qed.

(** C6, as amended.  When the coupon that the code finds has a non-zero
    usage limit and has been used at least that often, [applyCoupon] throws
    and the store is untouched: no redemption is counted and no cart is
    written.  For a logged-in caller and a coupon that is active and inside
    its dates, the error is the usage-limit one. *)
Theorem exhausted_coupon_is_refused now user code cartId db couponId c maxUses :
  findRow (λ c, String.eqb (Coupon.code c) code) (coupon db)
  = Some (couponId, c) →
  Coupon.maxUses c = Some maxUses →
  maxUses ≠ 0%Z →
  (maxUses ≤ Coupon.usesCount c)%Z →
  ∃ e, applyCoupon now user code cartId db = (Throw e, db)
       ∧ (is_Some user →
          Coupon.isActive c = true →
          (Coupon.startDate c ≤ now ≤ Coupon.endDate c)%Z →
          e = CouponUsageLimitReached).
Proof.
  intros Hfind Hmax Hnz Hused.
  eapply applyCoupon_limit_check; [done|].
  rewrite Hmax. cbn. apply Z.eqb_neq in Hnz as ->. cbn. by apply Z.leb_le.
Qed.

(** C6, the claim as written fails: [SPENT] has a usage limit of 1 and one
    use, and its end date has passed; [applyCoupon] throws, but the error is
    the expiry one.  [ZERO] has a usage limit of 0 and no uses; [applyCoupon]
    returns and counts a redemption. *)
Lemma exhausted_coupon_other_outcomes :
  (∃ c, coupon couponShop !! "coupon4" = Some c
        ∧ Coupon.code c = "SPENT"
        ∧ Coupon.maxUses c = Some 1%Z ∧ Coupon.usesCount c = 1%Z)
  ∧ applyCoupon 1000 (Some alice) "SPENT" "cart1" couponShop
    = (Throw CouponNotActiveOrExpired, couponShop)
  ∧ (applyCoupon 1000 (Some alice) "SPENT" "cart1" couponShop).1
    ≠ Throw CouponUsageLimitReached
  ∧ (∃ c payload db' c',
        coupon couponShop !! "coupon5" = Some c
        ∧ Coupon.code c = "ZERO"
        ∧ Coupon.maxUses c = Some 0%Z ∧ Coupon.usesCount c = 0%Z
        ∧ applyCoupon 1000 (Some alice) "ZERO" "cart1" couponShop
          = (Return payload, db')
        ∧ coupon db' !! "coupon5" = Some c'
        ∧ Coupon.usesCount c' = 1%Z).
Proof.
  split; [eexists; by vm_compute|]. split; [by vm_compute|].
  split; [by vm_compute|]. eexists _, _, _, _.
  split; [vm_compute; reflexivity|]. split; [reflexivity|].
  split; [reflexivity|]. split; [reflexivity|].
  split; [vm_compute; reflexivity|]. split; [vm_compute; reflexivity|].
  reflexivity.
Qed.

Lemma coupon_incrementUsesCount_run couponId db :
  coupon_incrementUsesCount couponId db =
  match coupon db !! couponId with
  | None => (Throw PrismaRecordNotFound, db)
  | Some c =>
    (Return tt, withCoupon <[couponId := Coupon.incrementUsesCount c]> db)
  end.
Proof.
  unfold coupon_incrementUsesCount, bind, get. cbn.
  by destruct (coupon db !! couponId).
Qed.

Lemma checkMinPurchase_run coupon cartTotal db res db' :
  checkMinPurchase coupon cartTotal db = (res, db') → db' = db.
Proof.
  unfold checkMinPurchase.
  destruct (truthyQ _); [destruct (Qltb _ _)|]; by intros [= _ <-].
Qed.

(** The store after a successful [applyCoupon], in full. *)
Lemma applyCoupon_Return now user code cartId db payload db' :
  applyCoupon now user code cartId db = (Return payload, db') →
  ∃ couponId c cartRow,
    findRow (λ c, String.eqb (Coupon.code c) code) (coupon db)
    = Some (couponId, c)
    ∧ coupon db !! couponId = Some c
    ∧ cart db !! cartId = Some cartRow
    ∧ payloadCouponCode payload = code
    ∧ db' = withCart
              <[cartId := Cart.setCoupon (payloadDiscountAmount payload)
                            (Some code) cartRow]>
              (withCoupon <[couponId := Coupon.incrementUsesCount c]> db).
Proof.
  unfold applyCoupon. intros H.
  destruct user as [u|]; [|discriminate].
  apply bind_Return in H as ([[couponId c]|] & db0 & Hfind & H);
    [|discriminate].
  unfold coupon_findUnique, bind, get, ret in Hfind. injection Hfind as Hfind <-.
  destruct (negb _ || _ || _); [discriminate|].
  destruct (from_option _ _ _); [discriminate|].
  apply bind_Return in H as ([items|] & db0 & Hcart & H); [|discriminate].
  unfold cart_findUnique_products, bind, get, ret in Hcart.
  destruct (cart db !! cartId) as [cartRow|] eqn:HcartRow; [|discriminate].
  injection Hcart as _ <-.
  destruct (cartTotalOf items) as [cartTotal|]; [|discriminate].
  apply bind_Return in H as ([] & db1 & ->%checkMinPurchase_run & H).
  apply bind_Return in H as ([] & db2 & Hinc & H).
  rewrite coupon_incrementUsesCount_run in Hinc.
  pose proof (findRow_Some _ _ _ _ Hfind) as [Hc _]. rewrite Hc in Hinc.
  injection Hinc as <-.
  apply bind_Return in H as ([] & db3 & Hupd & H).
  rewrite cart_update_run in Hupd. cbn in Hupd. rewrite HcartRow in Hupd.
  injection Hupd as <-. injection H as <- <-.
  exists couponId, c, cartRow. done.
Qed.

(** [applyCoupon] writes nothing before its last check, and its two writes
    cannot fail: when it throws, the store is as it was. *)
Lemma applyCoupon_Throw now user code cartId db e db' :
  applyCoupon now user code cartId db = (Throw e, db') → db' = db.
Proof.
  unfold applyCoupon.
  destruct user as [u|]; [|by intros [= _ <-]].
  unfold coupon_findUnique, cart_findUnique_products.
  unfold bind at 1 2. unfold get, ret.
  destruct (findRow _ _) as [[couponId c]|] eqn:Hfind; [|by intros [= _ <-]].
  destruct (negb _ || _ || _); [by intros [= _ <-]|].
  destruct (from_option _ _ _); [by intros [= _ <-]|].
  unfold bind at 1 2.
  destruct (cart db !! cartId) as [cartRow|] eqn:HcartRow; [|by intros [= _ <-]].
  destruct (cartTotalOf _) as [cartTotal|]; [|by intros [= _ <-]].
  unfold bind at 1.
  destruct (checkMinPurchase c cartTotal db) as [[e1|[]] db1] eqn:Hmin;
    apply checkMinPurchase_run in Hmin as ->.
  - by intros [= _ <-].
  - unfold bind at 1. rewrite coupon_incrementUsesCount_run.
    apply findRow_Some in Hfind as [-> _].
    unfold bind at 1. rewrite cart_update_run. cbn. rewrite HcartRow.
    discriminate.
Qed.

(** What [applyCoupon] writes when it returns: the coupon found by its code
    has its [usesCount] raised by exactly 1 and no other coupon changes; the
    cart row gets the coupon's code and the discount amount that is returned.
    The subtotal, discount, tax, shipping and total of the row are not
    written, and no cart item changes. *)
Lemma applyCoupon_redeems now user code cartId db payload db' :
  applyCoupon now user code cartId db = (Return payload, db') →
  ∃ couponId c c' cartRow cartRow',
    findRow (λ c, String.eqb (Coupon.code c) code) (coupon db)
    = Some (couponId, c)
    ∧ coupon db' !! couponId = Some c'
    ∧ Coupon.usesCount c' = (Coupon.usesCount c + 1)%Z
    ∧ (∀ other, other ≠ couponId → coupon db' !! other = coupon db !! other)
    ∧ cart db !! cartId = Some cartRow
    ∧ cart db' !! cartId = Some cartRow'
    ∧ Cart.couponCode cartRow' = Some code
    ∧ payloadCouponCode payload = code
    ∧ Cart.discountAmount cartRow' = payloadDiscountAmount payload
    ∧ Cart.subtotal cartRow' = Cart.subtotal cartRow
    ∧ Cart.discount cartRow' = Cart.discount cartRow
    ∧ Cart.tax cartRow' = Cart.tax cartRow
    ∧ Cart.shipping cartRow' = Cart.shipping cartRow
    ∧ Cart.total cartRow' = Cart.total cartRow
    ∧ cartItem db' = cartItem db.
Proof.
  intros (couponId & c & cartRow & Hfind & _ & Hrow & Hcode & ->)
    %applyCoupon_Return.
  eexists couponId, c, _, cartRow, _.
  split; [done|]. cbn. split; [apply lookup_insert_eq|].
  split; [done|]. split; [intros other Hne; by apply lookup_insert_ne|].
  split; [done|]. split; [apply lookup_insert_eq|]. done.
Qed.

(** C7.  [applyCoupon] does not recompute the totals.  [SAVE20] is applied to
    the cart of two lamps, whose totals are up to date (100, 0, 10, 10, 120):
    the call returns, the code and the discount amount 20 are stored, and
    the tax and the total stay as they were, the total at 120 where
    100 - 20 + 8 + 10 is 98.  [applyPromoCode] of the repository, the other
    way to a discount, ends with [recalculateCartTotals]. *)
Theorem applyCoupon_leaves_totals :
  ∃ payload db' c,
    applyCoupon 1000 (Some alice) "SAVE20" "cart1" couponShop
    = (Return payload, db')
    ∧ cart db' !! "cart1" = Some c
    ∧ Cart.couponCode c = Some "SAVE20"
    ∧ Cart.discountAmount c == 20
    ∧ Cart.subtotal c == 100
    ∧ Cart.tax c == 10
    ∧ Cart.shipping c == 10
    ∧ Cart.total c == 120
    ∧ ¬ Cart.tax c == (Cart.subtotal c - Cart.discountAmount c) * (1 # 10)
    ∧ ¬ Cart.total c
        == Cart.subtotal c - Cart.discountAmount c
           + (Cart.subtotal c - Cart.discountAmount c) * (1 # 10)
           + Cart.shipping c.
Proof.
  eexists _, _, _. split; [vm_compute; reflexivity|].
  split; [vm_compute; reflexivity|]. split; [reflexivity|]. by vm_compute.
Qed.

(** C9.  [removeCoupon] by a logged-in caller on an existing cart returns,
    clears the cart's coupon code, sets its discount amount to zero and
    leaves every coupon, so every usage counter, as it was.  Likewise
    [removePromoCode] of the repository disconnects the promo code, stores a
    zero discount and touches neither promo codes nor coupons. *)
Theorem removeCoupon_keeps_usage user cartId db cartRow :
  is_Some user →
  cart db !! cartId = Some cartRow →
  (∃ db' cartRow',
      removeCoupon user cartId db = (Return true, db')
      ∧ cart db' !! cartId = Some cartRow'
      ∧ Cart.couponCode cartRow' = None
      ∧ Cart.discountAmount cartRow' == 0
      ∧ coupon db' = coupon db)
  ∧ (∃ r db' cartRow',
        removePromoCode cartId db = (Return r, db')
        ∧ cart db' !! cartId = Some cartRow'
        ∧ Cart.promoCodeId cartRow' = None
        ∧ Cart.discount cartRow' == 0
        ∧ promoCode db' = promoCode db
        ∧ coupon db' = coupon db).
Proof.
  intros [u ->] Hcart. split.
  - unfold removeCoupon. unfold bind. rewrite cart_update_run, Hcart.
    eexists _, _. split; [reflexivity|]. cbn.
    split; [apply lookup_insert_eq|]. done.
  - unfold removePromoCode. unfold bind at 1. rewrite cart_update_run, Hcart.
    unfold bind at 1.
    unfold recalculateCartTotals, cart_findUnique, cart_update.
    unfold bind, get, ret, modify, throw. cbn.
    rewrite !lookup_insert_eq. cbn. rewrite !lookup_insert_eq.
    eexists _, _, _. split; [reflexivity|]. cbn.
    split; [apply lookup_insert_eq|]. done.
Qed.

(** The two coupon mutations never write the five totals: whatever they
    return, the carts that were balanced before are balanced after. *)
Lemma setCoupon_keeps_balance (carts : gmap ID Cart.t) cartId amount code row :
  carts !! cartId = Some row →
  (∀ i c, carts !! i = Some c → balanced c) →
  ∀ i c, <[cartId := Cart.setCoupon amount code row]> carts !! i = Some c →
         balanced c.
Proof.
  intros Hrow Hall i c. destruct (decide (i = cartId)) as [->|Hne].
  - rewrite lookup_insert_eq. intros [= <-]. apply (Hall _ _ Hrow).
  - rewrite lookup_insert_ne by done. apply Hall.
Qed.

Lemma coupon_mutations_keep_balance now user code cartId db :
  allBalanced db →
  (∀ res db', applyCoupon now user code cartId db = (res, db') →
              allBalanced db')
  ∧ (∀ res db', removeCoupon user cartId db = (res, db') → allBalanced db').
Proof.
  unfold allBalanced. intros Hall. split; intros [e|a] db' Hrun.
  - by apply applyCoupon_Throw in Hrun as ->.
  - apply applyCoupon_Return in Hrun
      as (couponId & c & cartRow & _ & _ & Hrow & _ & ->).
    cbn. by apply setCoupon_keeps_balance.
  - revert Hrun. unfold removeCoupon. destruct user; [|by intros [= _ <-]].
    unfold bind. rewrite cart_update_run.
    by destruct (cart db !! cartId); intros [= _ <-].
  - revert Hrun. unfold removeCoupon. destruct user; [|discriminate].
    unfold bind. rewrite cart_update_run.
    destruct (cart db !! cartId) as [row|] eqn:Hrow; [|discriminate].
    intros [= _ <-]. cbn. by apply setCoupon_keeps_balance.
Qed.

(** C10.  When [applyPromoCode] throws, the store is exactly as it was
    before the call, and the error is that the code is not found, that it has
    expired, or Prisma's for a cart that does not exist. *)
Theorem applyPromoCode_throws_before_writing now cartId code db e db' :
  applyPromoCode now cartId code db = (Throw e, db') →
  db' = db
  ∧ (e = PromoCodeNotFound code ∨ e = PromoCodeExpired code
     ∨ e = PrismaRecordNotFound).
Proof.
  unfold applyPromoCode, promoCode_findUnique. unfold bind at 1. unfold get.
  unfold bind at 1. unfold ret.
  destruct (findRow _ _) as [[promoCodeId p]|].
  - destruct (from_option _ _ _).
    + intros [= <- <-]. eauto.
    + unfold bind at 1. rewrite cart_update_run.
      destruct (cart db !! cartId) as [c|] eqn:Hc.
      * intros [H|([] & db1 & Hrec & H)]%bind_Throw; [|discriminate].
        apply recalculateCartTotals_Throw in H as [_ H]. cbn in H.
        by rewrite lookup_insert_eq in H.
      * intros [= <- <-]. eauto.
  - intros [= <- <-]. eauto.
Qed.

Lemma applyPromoCode_unknown_code now cartId code db :
  findRow (λ p, String.eqb (PromoCode.code p) code) (promoCode db) = None →
  applyPromoCode now cartId code db = (Throw (PromoCodeNotFound code), db).
Proof.
  intros H. unfold applyPromoCode, promoCode_findUnique, bind, get, ret.
  by rewrite H.
Qed.

Lemma applyPromoCode_expired_code now cartId code db promoCodeId p expiresAt :
  findRow (λ p, String.eqb (PromoCode.code p) code) (promoCode db)
  = Some (promoCodeId, p) →
  PromoCode.expiresAt p = Some expiresAt →
  (expiresAt < now)%Z →
  applyPromoCode now cartId code db = (Throw (PromoCodeExpired code), db).
Proof.
  intros H Hexp Hlt. unfold applyPromoCode, promoCode_findUnique, bind, get, ret.
  rewrite H, Hexp. cbn. by apply Z.ltb_lt in Hlt as ->.
Qed.

(** ** The theorems at work on the small stores *)

Lemma totals_balanced_after_mutation_witness :
  ∃ r db',
    run 0 (AddItem "cart1" (mkCartItemInput "mug" None 2)) shop = (Return r, db')
    ∧ ∃ v, r = Some v ∧ cart db' !! id v = Some (row v) ∧ balanced (row v)
           ∧ (∀ cartId, AddItem "cart1" (mkCartItemInput "mug" None 2)
                        = ClearCart cartId → zeroed (row v)).
Proof.
  eexists _, _. split; [vm_compute; reflexivity|].
  apply (totals_balanced_after_mutation 0 _ shop). vm_compute. reflexivity.
Defined.

Lemma addItem_twice_one_line_witness :
  ∃ r1 db1 r2 db2 i line,
    addItem "cart1" (mkCartItemInput "mug" None 2) shop = (Return r1, db1)
    ∧ addItem "cart1" (mkCartItemInput "mug" None 3) db1 = (Return r2, db2)
    ∧ linesOf "cart1" "mug" (truthy None) db2 = {[ i := line ]}
    ∧ CartItem.quantity line = (2 + 3)%Z
    ∧ dom (cartItem db2) = dom (cartItem db1).
Proof.
  apply addItem_twice_one_line.
  - eexists. vm_compute. reflexivity.
  - eexists. vm_compute. reflexivity.
  - intros v. cbn. discriminate.
  - vm_compute. reflexivity.
Defined.


Lemma exhausted_coupon_is_refused_witness :
  applyCoupon 1000 (Some alice) "LAST" "cart1" couponShop
  = (Throw CouponUsageLimitReached, couponShop).
Proof.
  destruct (exhausted_coupon_is_refused 1000 (Some alice) "LAST" "cart1"
              couponShop "coupon3"
              (couponOf "LAST" PERCENTAGE 10 (Some 1%Z) 1 2000) 1%Z)
    as (e & Hrun & He).
  - vm_compute. reflexivity.
  - reflexivity.
  - discriminate.
  - cbn. lia.
  - rewrite Hrun, He; [reflexivity | by eexists | reflexivity | cbn; lia].
Defined.

Lemma removeCoupon_keeps_usage_witness :
  (∃ cartRow c,
      cart redeemedShop !! "cart1" = Some cartRow
      ∧ Cart.couponCode cartRow = Some "SAVE20"
      ∧ Cart.discountAmount cartRow == 20
      ∧ Cart.promoCodeId cartRow = Some "promo1"
      ∧ Cart.discount cartRow == 10
      ∧ coupon redeemedShop !! "coupon1" = Some c
      ∧ Coupon.code c = "SAVE20"
      ∧ Coupon.usesCount c = 1%Z)
  ∧ (∃ db' cartRow',
        removeCoupon (Some alice) "cart1" redeemedShop = (Return true, db')
        ∧ cart db' !! "cart1" = Some cartRow'
        ∧ Cart.couponCode cartRow' = None
        ∧ Cart.discountAmount cartRow' == 0
        ∧ coupon db' = coupon redeemedShop)
  ∧ (∃ r db' cartRow',
        removePromoCode "cart1" redeemedShop = (Return r, db')
        ∧ cart db' !! "cart1" = Some cartRow'
        ∧ Cart.promoCodeId cartRow' = None
        ∧ Cart.discount cartRow' == 0
        ∧ promoCode db' = promoCode redeemedShop
        ∧ coupon db' = coupon redeemedShop).
Proof.
  split.
  { eexists _, _. split; [vm_compute; reflexivity|].
    split; [reflexivity|]. split; [by vm_compute|]. split; [reflexivity|].
    split; [by vm_compute|]. split; [vm_compute; reflexivity|]. done. }
  eapply (removeCoupon_keeps_usage (Some alice) "cart1" redeemedShop).
  - by eexists.
  - vm_compute. reflexivity.
Defined.

Lemma applyPromoCode_throws_before_writing_witness :
  ∃ e db',
    applyPromoCode 1000 "cart1" "SUMMER" couponShop = (Throw e, db')
    ∧ db' = couponShop
    ∧ (e = PromoCodeNotFound "SUMMER" ∨ e = PromoCodeExpired "SUMMER"
       ∨ e = PrismaRecordNotFound).
Proof.
  eexists _, _. split; [vm_compute; reflexivity|].
  apply (applyPromoCode_throws_before_writing 1000 "cart1" "SUMMER" couponShop).
  vm_compute. reflexivity.
Defined.

(** * Further properties of the repository *)

(** ** All or nothing *)

Lemma Prisma_eta db :
  mkPrisma (cart db) (cartItem db) (product db) (productVariant db)
           (promoCode db) (coupon db) = db.
Proof. by destruct db. Qed.

Lemma write_then_recalculate_throws (w : M unit) cartId db db1 e db' :
  w db = (Return tt, db1) →
  is_Some (cart db1 !! cartId) →
  (w;;; recalculateCartTotals cartId;;; findById cartId) db ≠ (Throw e, db').
Proof.
  intros Hw [c Hc] Hthrow.
  destruct (write_then_recalculate w cartId db db1 c Hw Hc) as (v & c' & Hrun).
  congruence.
Qed.

Lemma cartItem_create_throws cartId productId variantId quantity price total db
    res db' :
  cartItem_create cartId productId variantId quantity price total db
  = (res, db') →
  (res = Throw PrismaRecordNotFound ∧ db' = db)
  ∨ (res = Return tt ∧ is_Some (cart db !! cartId)
     ∧ db' = withCartItem
               <[fresh (dom (cartItem db)) :=
                   CartItem.mk cartId productId variantId quantity price total]>
               db).
Proof.
  unfold cartItem_create, bind, get, modify, throw. cbn.
  destruct (hasRow (cart db) cartId) eqn:Hcart; cbn.
  - destruct (_ && _); intros [= <- <-]; [right|by left].
    split; [done|]. split; [|done].
    unfold hasRow in Hcart. by apply bool_decide_eq_true_1 in Hcart.
  - intros [= <- <-]. by left.
Qed.

Lemma addItem_all_or_nothing cartId item db e db' :
  wellReferenced db →
  addItem cartId item db = (Throw e, db') →
  db' = db ∧ expectedError (AddItem cartId item) e.
Proof.
  intros Hrefs. unfold addItem, product_findUnique.
  unfold bind at 1 2. unfold get, ret. cbn [expectedError].
  destruct (product db !! productId item) as [p|]; [|intros [= <- <-]; eauto].
  assert (∀ price,
    (let* existingItem :=
       cartItem_findFirst cartId (productId item) (truthy (variantId item))
     in match existingItem with
        | Some (existingId, existingItem) =>
          cartItem_update existingId
            (CartItem.quantity existingItem + quantity item)%Z
            (inject_Z (CartItem.quantity existingItem + quantity item) * price)
        | None =>
          cartItem_create cartId (productId item) (truthy (variantId item))
            (quantity item) price (inject_Z (quantity item) * price)
        end;;; recalculateCartTotals cartId;;; findById cartId) db
    = (Throw e, db') →
    db' = db ∧ e = PrismaRecordNotFound) as Hwrite.
  { intros price. unfold cartItem_findFirst. unfold bind at 1 2.
    unfold get, ret.
    destruct (findRow _ _) as [[j ex]|] eqn:Hfind.
    - apply findRow_Some in Hfind as [Hj Hline%bool_decide_eq_true_1].
      intros Hthrow. exfalso. revert Hthrow.
      eapply write_then_recalculate_throws.
      + by apply (cartItem_update_run j _ _ ex).
      + cbn. destruct Hline as (<- & _). by apply (Hrefs j).
    - unfold bind at 1.
      destruct (cartItem_create _ _ _ _ _ _ db) as [res db1] eqn:Hcreate.
      apply cartItem_create_throws in Hcreate
        as [[-> ->]|(-> & Hcart & ->)]; [by intros [= <- <-]|].
      intros Hthrow. exfalso.
      destruct Hcart as [c Hc].
      destruct (recalculateCartTotals_found cartId
                  (withCartItem
                     <[fresh (dom (cartItem db)) :=
                         CartItem.mk cartId (productId item)
                           (truthy (variantId item)) (quantity item) price
                           (inject_Z (quantity item) * price)]> db) c Hc)
        as [c' Hrec].
      unfold bind in Hthrow. rewrite Hrec in Hthrow. discriminate. }
  destruct (truthy (variantId item)) as [v|].
  - destruct (variantsOf db (productId item) v) as [|pv ?].
    + intros [= <- <-]. split; [done|]. right. left. eauto.
    + intros [-> ->]%Hwrite. eauto.
  - intros [-> ->]%Hwrite. eauto.
Qed.

Lemma recalculate_then_find_throws cartId db e db' :
  is_Some (cart db !! cartId) →
  (recalculateCartTotals cartId;;; findById cartId) db ≠ (Throw e, db').
Proof.
  intros [c Hc]. unfold bind.
  destruct (recalculateCartTotals_found _ _ _ Hc) as [c' ->]. discriminate.
Qed.

(** X1.  Under referential integrity every mutation of the repository is all
    or nothing: when it throws, the store is exactly as before the call, and
    the error is one of those listed for it. *)
Theorem mutation_all_or_nothing now m db e db' :
  wellReferenced db →
  run now m db = (Throw e, db') →
  db' = db ∧ expectedError m e.
Proof.
  intros Hrefs.
  destruct m as [cartId item|cartItemId q|cartItemId|cartId|cartId code|cartId];
    cbn [run expectedError].
  - by apply addItem_all_or_nothing.
  - unfold updateItem, cartItem_findUnique. unfold bind at 1 2. unfold get, ret.
    destruct (cartItem db !! cartItemId) as [r|] eqn:Hr;
      [|by intros [= <- <-]].
    intros Hthrow. exfalso. revert Hthrow.
    eapply write_then_recalculate_throws.
    + by apply (cartItem_update_run cartItemId _ _ r).
    + cbn. by apply (Hrefs cartItemId).
  - unfold removeItem, cartItem_findUnique. unfold bind at 1 2. unfold get, ret.
    destruct (cartItem db !! cartItemId) as [r|] eqn:Hr;
      [|by intros [= <- <-]].
    intros Hthrow. exfalso. revert Hthrow.
    eapply write_then_recalculate_throws.
    + unfold cartItem_delete, bind, get, modify. cbn. by rewrite Hr.
    + cbn. by apply (Hrefs cartItemId).
  - unfold clearCart, cartItem_deleteMany. unfold bind at 1. unfold modify.
    unfold bind at 1. rewrite cart_update_run. cbn.
    destruct (cart db !! cartId) as [c|] eqn:Hc; [discriminate|].
    intros [= <- <-]. split; [|done].
    rewrite <- (Prisma_eta db) at 2. unfold withCartItem. f_equal.
    apply map_filter_id. intros i r Hr. cbn. intros <-.
    destruct (Hrefs i r Hr) as [c' Hc']. congruence.
  - unfold applyPromoCode, promoCode_findUnique. unfold bind at 1 2.
    unfold get, ret.
    destruct (findRow _ _) as [[promoCodeId p]|]; [|intros [= <- <-]; eauto].
    destruct (from_option _ _ _); [intros [= <- <-]; eauto|].
    unfold bind at 1. rewrite cart_update_run.
    destruct (cart db !! cartId) as [c|] eqn:Hc; [|intros [= <- <-]; eauto].
    intros Hthrow. exfalso. revert Hthrow.
    apply recalculate_then_find_throws. cbn. rewrite lookup_insert_eq. eauto.
  - unfold removePromoCode. unfold bind at 1. rewrite cart_update_run.
    destruct (cart db !! cartId) as [c|] eqn:Hc; [|by intros [= <- <-]].
    intros Hthrow. exfalso. revert Hthrow.
    apply recalculate_then_find_throws. cbn. rewrite lookup_insert_eq. eauto.
Qed.

(** ** Referential integrity is kept *)

Lemma preserves_bind {A B} (I : Prisma → Prop) (m : M A) (k : A → M B) :
  preserves I m → (∀ a, preserves I (k a)) → preserves I (bind m k).
Proof.
  intros Hm Hk db res db' HI. unfold bind.
  destruct (m db) as [[e|a] db1] eqn:Hrun.
  - intros [= _ <-]. by apply (Hm _ _ _ HI Hrun).
  - apply Hk. by apply (Hm _ _ _ HI Hrun).
Qed.

Lemma preserves_untouched {A} (I : Prisma → Prop) (m : M A) :
  (∀ db res db', m db = (res, db') → db' = db) → preserves I m.
Proof. by intros H db res db' HI ->%H. Qed.

Lemma preserves_ret {A} I (a : A) : preserves I (ret a).
Proof. apply preserves_untouched. by intros db res db' [= _ <-]. Qed.

Lemma preserves_throw {A} I e : preserves I (@throw A e).
Proof. apply preserves_untouched. by intros db res db' [= _ <-]. Qed.

Lemma preserves_reads I :
  (∀ id variantId, preserves I (product_findUnique id variantId))
  ∧ (∀ cartId productId variantId,
       preserves I (cartItem_findFirst cartId productId variantId))
  ∧ (∀ id, preserves I (cartItem_findUnique id))
  ∧ (∀ id, preserves I (cart_findUnique id))
  ∧ (∀ id, preserves I (findById id))
  ∧ (∀ code, preserves I (promoCode_findUnique code)).
Proof.
  repeat split; intros; apply preserves_untouched;
    by intros db res db' [= _ <-].
Qed.

Lemma wellReferenced_item_writes :
  (∀ id quantity total,
     preserves wellReferenced (cartItem_update id quantity total))
  ∧ (∀ cartId productId variantId quantity price total,
       preserves wellReferenced
         (cartItem_create cartId productId variantId quantity price total))
  ∧ (∀ id, preserves wellReferenced (cartItem_delete id))
  ∧ (∀ cartId, preserves wellReferenced (cartItem_deleteMany cartId)).
Proof.
  repeat split; intros; intros db res db' Hrefs.
  - unfold cartItem_update, bind, get, modify, throw. cbn.
    destruct (cartItem db !! id0) as [r|] eqn:Hr; intros [= _ <-]; [|done].
    intros i r'. cbn. destruct (decide (i = id0)) as [->|Hne].
    + rewrite lookup_insert_eq. intros [= <-]. cbn. by apply (Hrefs id0).
    + rewrite lookup_insert_ne by done. apply Hrefs.
  - intros [[_ ->]|(_ & Hcart & ->)]%cartItem_create_throws; [done|].
    intros i r'. cbn.
    destruct (decide (i = fresh (dom (cartItem db)))) as [->|Hne].
    + rewrite lookup_insert_eq. by intros [= <-].
    + rewrite lookup_insert_ne by done. apply Hrefs.
  - unfold cartItem_delete, bind, get, modify, throw. cbn.
    destruct (cartItem db !! id0) as [r|] eqn:Hr; intros [= _ <-]; [|done].
    intros i r'. cbn. intros [_ Hi]%lookup_delete_Some. by apply (Hrefs i).
  - intros [= _ <-]. intros i r'. cbn.
    intros [Hi _]%map_lookup_filter_Some. by apply (Hrefs i).
Qed.

Lemma wellReferenced_cart_update id data :
  preserves wellReferenced (cart_update id data).
Proof.
  intros db res db' Hrefs. rewrite cart_update_run.
  destruct (cart db !! id) as [c|] eqn:Hc; intros [= _ <-]; [|done].
  intros i r Hr. cbn. rewrite lookup_insert_is_Some'. right.
  by apply (Hrefs i).
Qed.

(** Walk through a method, as [keeps_totals] does, for referential
    integrity. *)
Ltac keeps_references :=
  repeat first
    [ apply preserves_ret
    | apply preserves_throw
    | apply preserves_reads
    | apply wellReferenced_item_writes
    | apply wellReferenced_cart_update
    | apply preserves_bind
    | match goal with |- ∀ _, _ => intros ? end
    | case_match ].

Lemma wellReferenced_recalculate cartId :
  preserves wellReferenced (recalculateCartTotals cartId).
Proof. unfold recalculateCartTotals. keeps_references. Qed.

(** X2.  Every mutation of the repository, returning or throwing, keeps
    referential integrity: no cart item is ever left without its cart. *)
Theorem wellReferenced_is_invariant now m db res db' :
  wellReferenced db → run now m db = (res, db') → wellReferenced db'.
Proof.
  revert db res db'. change (preserves wellReferenced (run now m)).
  pose proof wellReferenced_recalculate.
  destruct m; cbn [run].
  - unfold addItem. keeps_references; done.
  - unfold updateItem. keeps_references; done.
  - unfold removeItem. keeps_references; done.
  - unfold clearCart. keeps_references; done.
  - unfold applyPromoCode. keeps_references; done.
  - unfold removePromoCode. keeps_references; done.
Qed.

(** ** What [recalculateCartTotals] stores *)

Lemma recalculateCartTotals_run cartId db :
  recalculateCartTotals cartId db =
  match cart db !! cartId with
  | None => (Throw (CartNotFound cartId), db)
  | Some c => (Return tt, withCart <[cartId := recomputed cartId db c]> db)
  end.
Proof.
  unfold recalculateCartTotals, cart_findUnique, cart_update.
  unfold bind, get, ret, modify, throw. cbn.
  destruct (cart db !! cartId) as [c|] eqn:Hc; cbn; [|done]. by rewrite Hc.
Qed.

Lemma subtotal_nonnegative (items : list (ID * CartItem.t)) (start : Q) :
  0 <= start →
  Forall (λ item, 0 <= CartItem.total item.2) items →
  0 <= fold_left (λ sum item, sum + CartItem.total item.2) items start.
Proof.
  intros Hstart Hitems. revert start Hstart.
  induction Hitems as [|item items Hitem _ IH]; intros start Hstart; cbn;
    [done|].
  apply IH. rewrite <- (Qplus_0_r 0). by apply Qplus_le_compat.
Qed.

Lemma promoDiscount_bounds promo subtotal :
  0 <= subtotal →
  (∀ p, promo = Some p → sensiblePromo p) →
  0 <= promoDiscount promo subtotal ∧ promoDiscount promo subtotal <= subtotal.
Proof.
  intros Hsub Hpromo. destruct promo as [p|]; cbn; [|split; [apply Qle_refl|done]].
  destruct (Hpromo p eq_refl) as [Hlow Hhigh].
  destruct (PromoCode.isPercentage p).
  - specialize (Hhigh eq_refl). split.
    + apply Qmult_le_0_compat; [done|]. apply Qle_shift_div_l; [done|].
      by rewrite Qmult_0_l.
    + rewrite Qmult_comm. rewrite <- (Qmult_1_l subtotal) at 2.
      apply Qmult_le_compat_r; [|done].
      apply Qle_shift_div_r; [done|]. by rewrite Qmult_1_l.
  - split.
    + by apply Q.min_glb.
    + apply Q.le_min_r.
Qed.

(** X3.  With line totals that are not negative and a sensible promo code, the
    totals that [recalculateCartTotals] stores are in range: the discount lies
    between 0 and the subtotal, tax and shipping are not negative, and the
    total is at least the shipping charge. *)
Theorem recalculated_totals_in_range cartId db db' :
  recalculateCartTotals cartId db = (Return tt, db') →
  (∀ i r, cartItem db !! i = Some r → CartItem.cartId r = cartId →
          0 <= CartItem.total r) →
  (∀ c p, cart db !! cartId = Some c → promoOf c db = Some p →
          sensiblePromo p) →
  ∃ c', cart db' !! cartId = Some c'
        ∧ 0 <= Cart.subtotal c'
        ∧ 0 <= Cart.discount c' ∧ Cart.discount c' <= Cart.subtotal c'
        ∧ 0 <= Cart.tax c'
        ∧ 0 <= Cart.shipping c'
        ∧ Cart.shipping c' <= Cart.total c'.
Proof.
  rewrite recalculateCartTotals_run. intros Hrun Hlines Hpromo.
  destruct (cart db !! cartId) as [c|] eqn:Hc; [|discriminate].
  injection Hrun as <-. eexists. split; [apply lookup_insert_eq|].
  unfold recomputed. cbn.
  assert (0 <= subtotalOf cartId db) as Hsub.
  { apply subtotal_nonnegative; [done|]. apply Forall_forall.
    intros [i r] Hin%list_elem_of_In.
    apply elem_of_map_to_list, map_lookup_filter_Some in Hin as [Hi Hcart].
    by apply (Hlines i). }
  destruct (promoDiscount_bounds (promoOf c db) (subtotalOf cartId db) Hsub)
    as [Hlow Hhigh]; [intros p Hp; by apply (Hpromo c p)|].
  set (subtotal := subtotalOf cartId db) in *.
  set (discount := promoDiscount (promoOf c db) subtotal) in *.
  assert (0 <= (if Qltb 0 subtotal then 10 else 0)) as Hship
    by (by destruct (Qltb 0 subtotal)).
  set (shipping := if Qltb 0 subtotal then 10 else 0) in *.
  repeat split; try done; lra.
Qed.

Lemma recalculate_then_find_run cartId db r db' :
  (recalculateCartTotals cartId;;; findById cartId) db = (Return r, db') →
  ∃ c, cart db !! cartId = Some c
       ∧ db' = withCart <[cartId := recomputed cartId db c]> db
       ∧ r = Some (mkCartWithItems cartId (recomputed cartId db c)
                     (itemsOf cartId db) (promoOf c db)).
Proof.
  unfold bind. rewrite recalculateCartTotals_run.
  destruct (cart db !! cartId) as [c|] eqn:Hc; [|discriminate].
  rewrite findById_run. cbn. rewrite lookup_insert_eq.
  intros [= <- <-]. eauto.
Qed.

(** ** [updateItem] and [removeItem] *)

(** X4.  [updateItem] rewrites one line: its quantity becomes the one asked
    for and its total that quantity times the price captured when the line was
    created. No line is created or deleted and the catalog is not touched. *)
Theorem updateItem_uses_captured_price cartItemId q db r db' :
  updateItem cartItemId q db = (Return r, db') →
  ∃ line,
    cartItem db !! cartItemId = Some line
    ∧ cartItem db'
      = <[cartItemId :=
            CartItem.mk (CartItem.cartId line) (CartItem.productId line)
              (CartItem.variantId line) q (CartItem.price line)
              (inject_Z q * CartItem.price line)]> (cartItem db)
    ∧ dom (cartItem db') = dom (cartItem db)
    ∧ product db' = product db.
Proof.
  unfold updateItem, cartItem_findUnique. unfold bind at 1 2. unfold get, ret.
  destruct (cartItem db !! cartItemId) as [line|] eqn:Hline; [|discriminate].
  unfold bind at 1. rewrite (cartItem_update_run cartItemId _ _ line) by done.
  intros (c & _ & -> & _)%recalculate_then_find_run.
  exists line. cbn. split; [done|]. split; [done|]. split; [|done].
  apply dom_insert_lookup_L. eauto.
Qed.

Lemma updateItem_run cartItemId q db :
  updateItem cartItemId q db =
  match cartItem db !! cartItemId with
  | None => (Throw (CartItemNotFound cartItemId), db)
  | Some line =>
    let db1 :=
      withCartItem
        <[cartItemId :=
            CartItem.mk (CartItem.cartId line) (CartItem.productId line)
              (CartItem.variantId line) q (CartItem.price line)
              (inject_Z q * CartItem.price line)]> db in
    match cart db !! CartItem.cartId line with
    | None => (Throw (CartNotFound (CartItem.cartId line)), db1)
    | Some c =>
      (Return (Some (mkCartWithItems (CartItem.cartId line)
                       (recomputed (CartItem.cartId line) db1 c)
                       (itemsOf (CartItem.cartId line) db1) (promoOf c db))),
       withCart
         <[CartItem.cartId line := recomputed (CartItem.cartId line) db1 c]>
         db1)
    end
  end.
Proof.
  unfold updateItem, cartItem_findUnique. unfold bind at 1 2. unfold get, ret.
  destruct (cartItem db !! cartItemId) as [line|] eqn:Hline; [|done].
  unfold bind at 1. rewrite (cartItem_update_run cartItemId _ _ line) by done.
  unfold bind. rewrite recalculateCartTotals_run. cbn [cart withCartItem].
  destruct (cart db !! CartItem.cartId line) as [c|]; [|done].
  rewrite findById_run. cbn. by rewrite lookup_insert_eq.
Qed.

(** X5.  What [updateItem] writes does not depend on the catalog, and neither
    does the error it throws: with a price changed before the call, the
    tables end as they would have without the change (the catalog with its
    new price), and the call throws exactly when it would have, with the
    same error.  The cart that is returned is left aside, since its items
    come with their products. *)
Theorem updateItem_ignores_catalog cartItemId q productId price db :
  (updateItem cartItemId q (reprice productId price db)).2
  = reprice productId price (updateItem cartItemId q db).2
  ∧ ∀ e, (updateItem cartItemId q (reprice productId price db)).1 = Throw e
         ↔ (updateItem cartItemId q db).1 = Throw e.
Proof.
  rewrite !updateItem_run. cbn [cartItem cart reprice].
  destruct (cartItem db !! cartItemId) as [line|]; [|done]. cbn zeta.
  by destruct (cart db !! CartItem.cartId line).
Qed.

(** X6.  [removeItem] deletes the line and recomputes the totals of its cart:
    when no line is left, and the promo code on the cart (if any) has a
    discount that is not negative, the subtotal, discount, tax, shipping and
    total returned are all zero. *)
Theorem removeItem_last_line_zeroes_totals cartItemId db v db' :
  removeItem cartItemId db = (Return (Some v), db') →
  items v = [] →
  (∀ p, promo v = Some p → 0 <= PromoCode.discount p) →
  cartItem db' = delete cartItemId (cartItem db) ∧ zeroed (row v).
Proof.
  unfold removeItem, cartItem_findUnique. unfold bind at 1 2. unfold get, ret.
  destruct (cartItem db !! cartItemId) as [line|] eqn:Hline; [|discriminate].
  unfold bind at 1. unfold cartItem_delete, bind at 1, get, modify.
  cbn. rewrite Hline.
  intros (c & Hc & -> & [= ->])%recalculate_then_find_run. cbn.
  intros Hitems Hpromo. split; [done|].
  unfold zeroed, recomputed, subtotalOf. rewrite Hitems. cbn.
  assert (promoDiscount
            (promoOf c (withCartItem (delete cartItemId) db)) 0 == 0) as Hd.
  { destruct (promoOf c _) as [p|] eqn:Hp; cbn; [|reflexivity].
    destruct (PromoCode.isPercentage p); [apply Qmult_0_l|].
    apply Q.min_r. by apply Hpromo. }
  rewrite Hd. by vm_compute.
Qed.

(** ** [clearCart] *)

Lemma clearCart_Return cartId db r db' :
  clearCart cartId db = (Return r, db') →
  ∃ c, cart db !! cartId = Some c
       ∧ db' = withCart
                 <[cartId := Cart.setPromoCode None (Cart.setTotals 0 0 0 0 0 c)]>
                 (withCartItem
                    (filter (λ kv, CartItem.cartId kv.2 ≠ cartId)) db)
       ∧ r = Some (mkCartWithItems cartId
                     (Cart.setPromoCode None (Cart.setTotals 0 0 0 0 0 c))
                     (itemsOf cartId db') None).
Proof.
  unfold clearCart, cartItem_deleteMany. unfold bind at 1. unfold modify.
  unfold bind at 1. rewrite cart_update_run. cbn [cart withCartItem].
  destruct (cart db !! cartId) as [c|] eqn:Hc; [|discriminate].
  rewrite findById_run. cbn. rewrite lookup_insert_eq. intros [= <- <-].
  eauto.
Qed.

Lemma itemsOf_cleared cartId (carts : gmap ID Cart.t → gmap ID Cart.t) db :
  itemsOf cartId
    (withCart carts
       (withCartItem (filter (λ kv, CartItem.cartId kv.2 ≠ cartId)) db)) = [].
Proof.
  unfold itemsOf. cbn. apply map_to_list_empty_iff, map_empty. intros i.
  apply eq_None_not_Some.
  intros [line [[_ Hne]%map_lookup_filter_Some Heq]%map_lookup_filter_Some].
  done.
Qed.

Lemma itemsOf_not_cleared cartId other
    (carts : gmap ID Cart.t → gmap ID Cart.t) db :
  other ≠ cartId →
  itemsOf other
    (withCart carts
       (withCartItem (filter (λ kv, CartItem.cartId kv.2 ≠ cartId)) db))
  = itemsOf other db.
Proof.
  intros Hother. unfold itemsOf. cbn. f_equal. rewrite map_filter_filter.
  apply map_filter_ext. intros i line _. cbn. split; [by intros []|].
  intros ->. done.
Qed.

(** X7.  [clearCart] empties one cart and leaves the others alone: the cart
    returned has no line and no promo code, and every other cart keeps its row
    and its lines. *)
Theorem clearCart_only_that_cart cartId db r db' :
  clearCart cartId db = (Return r, db') →
  (∃ v, r = Some v ∧ items v = [] ∧ promo v = None
        ∧ Cart.promoCodeId (row v) = None)
  ∧ itemsOf cartId db' = []
  ∧ (∀ other, other ≠ cartId →
       cart db' !! other = cart db !! other
       ∧ itemsOf other db' = itemsOf other db).
Proof.
  intros (c & Hc & -> & ->)%clearCart_Return.
  split; [eexists; split; [done|]; cbn; by rewrite itemsOf_cleared|].
  split; [apply itemsOf_cleared|]. intros other Hother.
  split; [by apply lookup_insert_ne | by apply itemsOf_not_cleared].
Qed.

(** ** Promo codes *)

(** X8.  When [applyPromoCode] returns, the code exists and has not expired,
    the cart points to it (whatever promo code it held before), and the
    discount stored is the code's percentage of the subtotal, or its fixed
    amount capped by the subtotal. No cart item changes. *)
Theorem applyPromoCode_stores_discount now cartId code db r db' :
  applyPromoCode now cartId code db = (Return r, db') →
  ∃ promoCodeId p v,
    promoCode db !! promoCodeId = Some p
    ∧ PromoCode.code p = code
    ∧ (∀ expiresAt, PromoCode.expiresAt p = Some expiresAt →
                    (now ≤ expiresAt)%Z)
    ∧ r = Some v
    ∧ cart db' !! cartId = Some (row v)
    ∧ Cart.promoCodeId (row v) = Some promoCodeId
    ∧ promo v = Some p
    ∧ Cart.discount (row v)
      = (if PromoCode.isPercentage p
         then Cart.subtotal (row v) * (PromoCode.discount p / 100)
         else Qmin (PromoCode.discount p) (Cart.subtotal (row v)))
    ∧ cartItem db' = cartItem db.
Proof.
  unfold applyPromoCode, promoCode_findUnique. unfold bind at 1 2.
  unfold get, ret.
  destruct (findRow _ _) as [[promoCodeId p]|] eqn:Hfind; [|discriminate].
  apply findRow_Some in Hfind as [Hp Hcode%String.eqb_eq].
  destruct (from_option _ _ _) eqn:Hexpired; [discriminate|].
  unfold bind at 1. rewrite cart_update_run.
  destruct (cart db !! cartId) as [c|] eqn:Hc; [|discriminate].
  intros (c1 & Hc1 & -> & ->)%recalculate_then_find_run.
  cbn in Hc1. rewrite lookup_insert_eq in Hc1. injection Hc1 as <-.
  exists promoCodeId, p. eexists. split; [done|]. split; [done|].
  split.
  { intros expiresAt He. rewrite He in Hexpired. cbn in Hexpired.
    by apply Z.ltb_ge in Hexpired. }
  split; [done|]. cbn. split; [apply lookup_insert_eq|].
  unfold promoOf. cbn. rewrite Hp. done.
Qed.





(** ** Adding and removing a line *)


(** ** Creating carts *)

Lemma findRow_present {A} (P : A → bool) (table : gmap ID A) i x :
  table !! i = Some x → P x = true → is_Some (findRow P table).
Proof.
  intros Hi HP. destruct (findRow P table) as [r|] eqn:Hfind; [eauto|].
  apply (findRow_None _ _ i x) in Hfind; [congruence | done].
Qed.

(** X11.  For a caller without a cart (a user the store knows who has none, or
    no user at all) [createOrUpdateCart] creates exactly one cart: a new row
    with zero totals, no promo code and an expiry thirty days ahead. Every
    other cart and every cart item is untouched. *)
Theorem createOrUpdateCart_creates users now userId db :
  (∀ u, truthy userId = Some u →
        u ∈ users
        ∧ ∀ i c, cart db !! i = Some c → Cart.userId c ≠ Some u) →
  ∃ v db',
    createOrUpdateCart users now userId db = (Return (Some v), db')
    ∧ cart db !! id v = None
    ∧ cart db' = <[id v := row v]> (cart db)
    ∧ cartItem db' = cartItem db
    ∧ Cart.userId (row v) = truthy userId
    ∧ Cart.expiresAt (row v) = Some (now + 2592000000)%Z
    ∧ Cart.promoCodeId (row v) = None
    ∧ zeroed (row v).
Proof.
  intros Huser. unfold createOrUpdateCart, cart_create.
  assert (from_option (λ u, bool_decide (u ∈ users)) true (truthy userId) = true)
    as Hknown.
  { destruct (truthy userId) as [u|] eqn:Hu; [|done]. cbn.
    apply bool_decide_eq_true_2. by apply Huser. }
  assert ((match truthy userId with
           | Some u =>
             let* db := get in
             ret (findRow (λ c, bool_decide (Cart.userId c = Some u)) (cart db))
           | None => ret None
           end) db = (Return None, db)) as Hfind.
  { destruct (truthy userId) as [u|] eqn:Hu; [|done].
    unfold bind, get, ret. rewrite findRow_absent; [done|].
    intros i c Hc. apply bool_decide_eq_false_2.
    by apply (proj2 (Huser u eq_refl) i). }
  unfold bind at 1. rewrite Hfind. unfold bind, get, modify, ret.
  rewrite Hknown. eexists _, _. split; [reflexivity|]. cbn.
  split; [apply not_elem_of_dom, is_fresh|]. by repeat split.
Qed.


(** * Further properties of the coupon mutations *)

(** What [applyCoupon] has checked when it returns. *)
Lemma applyCoupon_Return_checks now user code cartId db payload db' :
  applyCoupon now user code cartId db = (Return payload, db') →
  ∃ couponId c cartTotal,
    findRow (λ c, String.eqb (Coupon.code c) code) (coupon db)
    = Some (couponId, c)
    ∧ is_Some user
    ∧ Coupon.isActive c = true
    ∧ (Coupon.startDate c ≤ now ≤ Coupon.endDate c)%Z
    ∧ (∀ maxUses, truthyZ (Coupon.maxUses c) = Some maxUses →
                  (Coupon.usesCount c < maxUses)%Z)
    ∧ catalogTotal cartId db = Some cartTotal
    ∧ (∀ minPurchase, truthyQ (Coupon.minPurchase c) = Some minPurchase →
                      minPurchase <= cartTotal)
    ∧ payloadDiscountAmount payload = discountAmountOf c cartTotal.
Proof.
  unfold applyCoupon. intros H.
  destruct user as [u|]; [|discriminate].
  apply bind_Return in H as ([[couponId c]|] & db0 & Hfind & H);
    [|discriminate].
  unfold coupon_findUnique, bind, get, ret in Hfind. injection Hfind as Hfind <-.
  destruct (negb _ || _ || _) eqn:Hdates; [discriminate|].
  destruct (from_option _ _ _) eqn:Hlimit; [discriminate|].
  apply bind_Return in H as ([items|] & db0 & Hcart & H); [|discriminate].
  unfold cart_findUnique_products, bind, get, ret in Hcart.
  destruct (cart db !! cartId) as [cartRow|] eqn:HcartRow; [|discriminate].
  injection Hcart as <- <-.
  destruct (cartTotalOf _) as [cartTotal|] eqn:Htotal; [|discriminate].
  apply bind_Return in H as ([] & db1 & Hmin & H).
  apply bind_Return in H as ([] & db2 & _ & H).
  apply bind_Return in H as ([] & db3 & _ & H). injection H as <- _.
  exists couponId, c, cartTotal. split; [done|]. split; [eauto|].
  apply orb_false_iff in Hdates as [[Hactive Hend]%orb_false_iff Hstart].
  apply negb_false_iff in Hactive. apply Z.ltb_ge in Hend, Hstart.
  split; [done|]. split; [lia|]. split.
  { intros maxUses Hmax. rewrite Hmax in Hlimit. cbn in Hlimit.
    by apply Z.leb_gt in Hlimit. }
  split; [done|]. split; [|done].
  intros minPurchase HminP. unfold checkMinPurchase in Hmin.
  rewrite HminP in Hmin. destruct (Qltb cartTotal minPurchase) eqn:Hlt;
    [discriminate|].
  apply Qnot_lt_le. intros Hlt'%Qltb_lt. congruence.
Qed.

(** X13.  [applyCoupon] redeems a coupon only when it may: when it returns,
    the caller is logged in, the coupon is active and inside its dates, a
    usage limit (if set and not zero) has not been reached, and the cart's
    total at catalog prices is at least the minimum purchase (if set and not
    zero). *)
Theorem applyCoupon_only_when_allowed now user code cartId db payload db' :
  applyCoupon now user code cartId db = (Return payload, db') →
  ∃ couponId c cartTotal,
    coupon db !! couponId = Some c
    ∧ Coupon.code c = code
    ∧ is_Some user
    ∧ Coupon.isActive c = true
    ∧ (Coupon.startDate c ≤ now ≤ Coupon.endDate c)%Z
    ∧ (∀ maxUses, Coupon.maxUses c = Some maxUses → maxUses ≠ 0%Z →
                  (Coupon.usesCount c < maxUses)%Z)
    ∧ catalogTotal cartId db = Some cartTotal
    ∧ (∀ minPurchase, Coupon.minPurchase c = Some minPurchase →
                      ¬ minPurchase == 0 → minPurchase <= cartTotal).
Proof.
  intros (couponId & c & cartTotal & Hfind & Huser & Hactive & Hdates & Hlimit
          & Htotal & Hmin & _)%applyCoupon_Return_checks.
  apply findRow_Some in Hfind as [Hc Hcode%String.eqb_eq].
  exists couponId, c, cartTotal. repeat split; try done; try lia.
  - intros maxUses Hmax Hnz. apply Hlimit. rewrite Hmax. cbn.
    by apply Z.eqb_neq in Hnz as ->.
  - intros minPurchase HminP Hnz. apply Hmin. rewrite HminP. cbn.
    destruct (Qeq_bool minPurchase 0) eqn:Hz; [|done].
    by apply Qeq_bool_iff in Hz.
Qed.

(** A redemption that runs with no other request in between keeps the
    coupons inside their usage limits: if every limited coupon has been used
    at most [maxUses] times, this still holds after [applyCoupon], whether it
    returns or throws.  Requests that overlap are another matter, taken up
    at the end. *)
Lemma withinLimits_is_invariant now user code cartId db res db' :
  withinLimits db →
  applyCoupon now user code cartId db = (res, db') →
  withinLimits db'.
Proof.
  intros Hall Hrun. destruct res as [e|payload].
  - by apply applyCoupon_Throw in Hrun as ->.
  - pose proof (applyCoupon_Return_checks _ _ _ _ _ _ _ Hrun)
      as (couponId & c & cartTotal & Hfind & _ & _ & _ & Hlimit & _).
    apply applyCoupon_Return in Hrun
      as (couponId' & c' & cartRow & Hfind' & Hc & _ & _ & ->).
    rewrite Hfind in Hfind'. injection Hfind' as <- <-.
    intros i ci maxUses. cbn.
    destruct (decide (i = couponId)) as [->|Hne].
    + rewrite lookup_insert_eq. intros [= <-]. cbn. intros Hmax.
      specialize (Hlimit maxUses Hmax). lia.
    + rewrite lookup_insert_ne by done. apply Hall.
Qed.

(** X15.  The discount of a [PERCENTAGE] coupon never exceeds its
    [maxDiscount], when one is set and not zero. *)
Theorem applyCoupon_percentage_capped now user code cartId db payload db'
    couponId c maxDiscount :
  applyCoupon now user code cartId db = (Return payload, db') →
  findRow (λ c, String.eqb (Coupon.code c) code) (coupon db)
  = Some (couponId, c) →
  Coupon.discountType c = PERCENTAGE →
  Coupon.maxDiscount c = Some maxDiscount →
  ¬ maxDiscount == 0 →
  payloadDiscountAmount payload <= maxDiscount.
Proof.
  intros (couponId' & c' & cartTotal & Hfind' & _ & _ & _ & _ & _ & _ & ->)
    %applyCoupon_Return_checks Hfind Htype Hmax Hnz.
  rewrite Hfind in Hfind'. injection Hfind' as <- <-.
  unfold discountAmountOf. rewrite Htype, Hmax. cbn.
  destruct (Qeq_bool maxDiscount 0) eqn:Hz.
  { by apply Qeq_bool_iff in Hz. }
  destruct (Qltb _ _) eqn:Hlt; [apply Qle_refl|].
  apply Qnot_lt_le. intros Hgt%Qltb_lt. congruence.
Qed.

(** X16.  Both coupon mutations are all or nothing: when [applyCoupon] or
    [removeCoupon] throws, the store is as it was. *)
Theorem coupon_mutations_all_or_nothing now user code cartId db e db' :
  applyCoupon now user code cartId db = (Throw e, db')
  ∨ removeCoupon user cartId db = (Throw e, db') →
  db' = db.
Proof.
  intros [Hrun|Hrun]; [by apply applyCoupon_Throw in Hrun|].
  revert Hrun. unfold removeCoupon. destruct user; [|by intros [= _ <-]].
  unfold bind. rewrite cart_update_run.
  by destruct (cart db !! cartId); intros [= _ <-].
Qed.

(** X17.  [removeCoupon] undoes on the cart what [applyCoupon] did, but not
    the redemption: for a cart that held no coupon, applying a coupon and
    removing it gives back every cart row, while the coupon stays used once
    more. *)
Theorem coupon_removed_stays_redeemed now user code cartId db payload db1 c :
  cart db !! cartId = Some c →
  Cart.couponCode c = None →
  Cart.discountAmount c = 0 →
  applyCoupon now user code cartId db = (Return payload, db1) →
  ∃ db2 couponId coupon0 coupon2,
    removeCoupon user cartId db1 = (Return true, db2)
    ∧ cart db2 = cart db
    ∧ cartItem db2 = cartItem db
    ∧ coupon db !! couponId = Some coupon0
    ∧ Coupon.code coupon0 = code
    ∧ coupon db2 !! couponId = Some coupon2
    ∧ Coupon.usesCount coupon2 = (Coupon.usesCount coupon0 + 1)%Z.
Proof.
  intros Hc Hcode Hamount Hrun.
  pose proof (applyCoupon_Return_checks _ _ _ _ _ _ _ Hrun)
    as (_ & _ & _ & _ & [u ->] & _).
  apply applyCoupon_Return in Hrun
    as (couponId & coupon0 & cartRow & Hfind & Hcoupon & Hrow & _ & ->).
  apply findRow_Some in Hfind as [_ Hcode0%String.eqb_eq].
  rewrite Hc in Hrow. injection Hrow as <-.
  unfold removeCoupon, bind. rewrite cart_update_run. cbn [cart withCart].
  rewrite lookup_insert_eq.
  eexists _, couponId, coupon0, _. split; [reflexivity|]. cbn.
  split.
  { rewrite insert_insert_eq. apply insert_id. rewrite Hc. f_equal.
    destruct c. cbn in *. by subst. }
  split; [done|]. split; [done|]. split; [done|].
  split; [apply lookup_insert_eq|]. done.
Qed.

(** * The cart resolvers *)

Lemma tryCatch_failed {A} (body : Eff Prisma Thrown A) message db g db' :
  tryCatch body (failed message) db = (Raise g, db') →
  g = GraphQL.mk message GraphQL.INTERNAL_SERVER_ERROR.
Proof.
  unfold tryCatch, failed, raise. destruct (body db) as [[e|a] db1];
    by intros [= <- _].
Qed.

(** X18.  Whatever goes wrong in a cart resolver, the client sees the same
    error: the resolver's own message with the code INTERNAL_SERVER_ERROR. The
    NOT_FOUND, FORBIDDEN and UNAUTHENTICATED errors thrown inside never reach
    it. *)
Theorem cart_resolvers_mask_errors users now id quantity input code context db
    message g db' :
  (CartResolvers.cart id context db = (Raise g, db')
   ∧ message = "Failed to fetch cart")
  ∨ (CartResolvers.userCart users now context db = (Raise g, db')
     ∧ message = "Failed to fetch user cart")
  ∨ (CartResolvers.addToCart users now input context db = (Raise g, db')
     ∧ message = "Failed to add item to cart")
  ∨ (CartResolvers.updateCartItem id quantity context db = (Raise g, db')
     ∧ message = "Failed to update cart item")
  ∨ (CartResolvers.removeFromCart id context db = (Raise g, db')
     ∧ message = "Failed to remove cart item")
  ∨ (CartResolvers.clearCart context db = (Raise g, db')
     ∧ message = "Failed to clear cart")
  ∨ (CartResolvers.applyPromoCode now code context db = (Raise g, db')
     ∧ message = "Failed to apply promo code")
  ∨ (CartResolvers.removePromoCode context db = (Raise g, db')
     ∧ message = "Failed to remove promo code") →
  g = GraphQL.mk message GraphQL.INTERNAL_SERVER_ERROR.
Proof.
  intros H. repeat destruct H as [H|H]; destruct H as [H ->];
    by apply tryCatch_failed in H.
Qed.

Lemma await_run {A} (m : M A) db :
  await m db = match m db with
               | (Return a, db') => (Done a, db')
               | (Throw e, db') => (Raise (RepositoryError e), db')
               end.
Proof. reflexivity. Qed.

Lemma ownedItem_refuses context id forbidden db line c owner :
  cartItem db !! id = Some line →
  cart db !! CartItem.cartId line = Some c →
  truthy (Cart.userId c) = Some owner →
  Context.token context = "" ∨ Context.userId context ≠ given owner →
  ownedItem context id forbidden db
  = (Raise (GraphQLError forbidden GraphQL.FORBIDDEN), db).
Proof.
  intros Hline Hc Howner Hctx.
  unfold ownedItem, andThen, await, cartItem_findUnique_cart, bind, get, ret.
  rewrite Hline. cbn. rewrite Hc. unfold notTheOwner. rewrite Howner.
  assert (negb (hasToken context)
          || negb (bool_decide (given owner = Context.userId context)) = true)
    as ->; [|done].
  destruct Hctx as [Htoken|Huser].
  - unfold hasToken. by rewrite Htoken.
  - rewrite (bool_decide_eq_false_2 (given owner = Context.userId context))
      by congruence.
    apply orb_true_r.
Qed.

(** X19.  A line of a cart that has an owner can be changed by the owner only:
    for a caller without a token, or whose user id is not the owner's,
    [updateCartItem] and [removeFromCart] fail and the store is as it was. *)
Theorem item_mutations_need_the_owner context id quantity db line c owner :
  cartItem db !! id = Some line →
  cart db !! CartItem.cartId line = Some c →
  truthy (Cart.userId c) = Some owner →
  Context.token context = "" ∨ Context.userId context ≠ given owner →
  CartResolvers.updateCartItem id quantity context db
  = (Raise (GraphQL.mk "Failed to update cart item"
              GraphQL.INTERNAL_SERVER_ERROR), db)
  ∧ CartResolvers.removeFromCart id context db
    = (Raise (GraphQL.mk "Failed to remove cart item"
                GraphQL.INTERNAL_SERVER_ERROR), db).
Proof.
  intros Hline Hc Howner Hctx.
  unfold CartResolvers.updateCartItem, CartResolvers.removeFromCart.
  unfold tryCatch, andThen.
  by rewrite !(ownedItem_refuses _ _ _ _ line c owner).
Qed.

(** X20.  Without a token, [userCart], [clearCart], [applyPromoCode] and
    [removePromoCode] fail and the store is as it was. *)
Theorem cart_mutations_need_a_token users now code context db :
  Context.token context = "" →
  CartResolvers.userCart users now context db
  = (Raise (GraphQL.mk "Failed to fetch user cart"
              GraphQL.INTERNAL_SERVER_ERROR), db)
  ∧ CartResolvers.clearCart context db
    = (Raise (GraphQL.mk "Failed to clear cart"
                GraphQL.INTERNAL_SERVER_ERROR), db)
  ∧ CartResolvers.applyPromoCode now code context db
    = (Raise (GraphQL.mk "Failed to apply promo code"
                GraphQL.INTERNAL_SERVER_ERROR), db)
  ∧ CartResolvers.removePromoCode context db
    = (Raise (GraphQL.mk "Failed to remove promo code"
                GraphQL.INTERNAL_SERVER_ERROR), db).
Proof.
  intros Htoken.
  unfold CartResolvers.userCart, CartResolvers.clearCart,
    CartResolvers.applyPromoCode, CartResolvers.removePromoCode.
  unfold tryCatch, andThen, callersCart, hasToken. rewrite Htoken. done.
Qed.

Lemma findByUserId_run userId db :
  findByUserId userId db
  = (Return
       (match findRow (whereUserId userId) (cart db) with
        | Some (id, c) =>
          Some (mkCartWithItems id c (itemsOf id db) (promoOf c db))
        | None => None
        end), db).
Proof. reflexivity. Qed.

Lemma hasToken_true context :
  hasToken context = true → Context.token context ≠ "".
Proof.
  unfold hasToken. intros H%negb_true_iff Htoken. rewrite Htoken in H.
  discriminate.
Qed.

Lemma whereUserId_given u c :
  whereUserId (given u) c = true → Cart.userId c = Some u.
Proof. apply bool_decide_eq_true_1. Qed.

Lemma whereUserId_null c : whereUserId null c = true → Cart.userId c = None.
Proof. apply bool_decide_eq_true_1. Qed.

(** X21.  The [clearCart] resolver empties one cart, the one that
    [findByUserId] selects for [context.userId]: when it succeeds the caller
    has a token, the response shows the cart without lines, and every other
    cart keeps its row and its lines.  The cart is a cart of the caller when
    [context.userId] is a user id, and a cart without a user when it is
    [null].  When it is [undefined] the [where] clause selects among all the
    carts, and nothing relates the cart that is emptied to the caller. *)
Theorem clearCart_resolver_clears_callers_cart context db response db' :
  CartResolvers.clearCart context db = (Done response, db') →
  ∃ cartId c,
    findRow (whereUserId (Context.userId context)) (cart db) = Some (cartId, c)
    ∧ cart db !! cartId = Some c
    ∧ (∀ u, Context.userId context = given u → Cart.userId c = Some u)
    ∧ (Context.userId context = null → Cart.userId c = None)
    ∧ Context.token context ≠ ""
    ∧ (∃ v, CartResponse.cart response = Some v
            ∧ id v = cartId ∧ items v = [])
    ∧ itemsOf cartId db' = []
    ∧ ∀ other, other ≠ cartId →
        cart db' !! other = cart db !! other
        ∧ itemsOf other db' = itemsOf other db.
Proof.
  unfold CartResolvers.clearCart, tryCatch, andThen, callersCart.
  destruct (hasToken context) eqn:Htoken; [|discriminate].
  unfold andThen. rewrite await_run, findByUserId_run.
  destruct (findRow _ (cart db)) as [[cartId c]|] eqn:Hfind; [|discriminate].
  pose proof Hfind as [Hc Hwhere]%findRow_Some.
  cbn [yield id]. rewrite await_run.
  destruct (clearCart cartId db) as [[e|r] db1] eqn:Hclear; [discriminate|].
  intros [= <- <-].
  apply clearCart_Return in Hclear as (c' & Hc' & -> & ->).
  exists cartId, c. split; [done|]. split; [done|].
  split; [intros u Hu; rewrite Hu in Hwhere; by apply whereUserId_given|].
  split; [intros Hu; rewrite Hu in Hwhere; by apply whereUserId_null|].
  split; [by apply hasToken_true|].
  split; [eexists; split; [done|]; cbn; by rewrite itemsOf_cleared|].
  split; [apply itemsOf_cleared|]. intros other Hother.
  split; [by apply lookup_insert_ne | by apply itemsOf_not_cleared].
Qed.

(** X22.  An anonymous caller of [addToCart] adds to whatever cart the input
    names: the resolver checks that the cart exists, not whose it is, so the
    call is [addItem] on that cart, also when the cart belongs to a user. *)
Theorem addToCart_anonymous_names_any_cart users now input context cartId db c :
  Context.token context = "" →
  truthy (inputCartId input) = Some cartId →
  cart db !! cartId = Some c →
  CartResolvers.addToCart users now input context db
  = match addItem cartId
            (mkCartItemInput (inputProductId input) (inputVariantId input)
               (inputQuantity input)) db with
    | (Return r, db') => (Done (ok "Item added to cart successfully" r), db')
    | (Throw _, db') =>
      (Raise (GraphQL.mk "Failed to add item to cart"
                GraphQL.INTERNAL_SERVER_ERROR), db')
    end.
Proof.
  intros Htoken Hinput Hc.
  unfold CartResolvers.addToCart, tryCatch, hasToken. rewrite Htoken, Hinput.
  cbn [String.eqb negb]. unfold andThen at 1 2.
  rewrite await_run, findById_run, Hc. cbn [yield]. unfold andThen.
  rewrite await_run. by destruct (addItem _ _ db) as [[e|r] db1].
Qed.

Lemma findRow_only {A} (P : A → bool) (table : gmap ID A) i x :
  findRow P table = None → P x = true →
  findRow P (<[i := x]> table) = Some (i, x).
Proof.
  intros Hnone HP.
  destruct (findRow P (<[i := x]> table)) as [[j y]|] eqn:Hfind.
  - apply findRow_Some in Hfind as [Hj Hy].
    destruct (decide (j = i)) as [->|Hne].
    + rewrite lookup_insert_eq in Hj. congruence.
    + rewrite lookup_insert_ne in Hj by done.
      apply (findRow_None _ _ j y) in Hnone; [congruence | done].
  - apply (findRow_None _ _ i x) in Hfind; [congruence | apply lookup_insert_eq].
Qed.

(** X23.  [userCart] finds a cart for [context.userId] or creates one: when
    it returns, the caller has a token, the cart returned is in the store,
    and the store is as before or has that one cart more.  The cart belongs
    to the caller when [context.userId] is a user id (not the empty string),
    and has no user when it is [null].  When it is [undefined], the cart is
    the one [findFirst] selects among all the carts, whoever its user is; a
    cart is created only in a store without carts, and has no user.  Unless
    [context.userId] is the empty string, asking again returns the same cart
    and writes nothing. *)
Theorem userCart_finds_or_creates users now context db r db' :
  CartResolvers.userCart users now context db = (Done r, db') →
  ∃ v,
    r = Some v
    ∧ Context.token context ≠ ""
    ∧ cart db' !! id v = Some (row v)
    ∧ (∀ u, Context.userId context = given u → u ≠ "" →
            Cart.userId (row v) = Some u)
    ∧ (Context.userId context = null → Cart.userId (row v) = None)
    ∧ (Context.userId context = undefined →
       findRow (λ _, true) (cart db) = Some (id v, row v)
       ∨ (cart db = ∅ ∧ Cart.userId (row v) = None))
    ∧ (db' = db ∨ (cart db !! id v = None ∧ db' = withCart <[id v := row v]> db))
    ∧ (Context.userId context ≠ given "" →
       ∀ now', CartResolvers.userCart users now' context db' = (Done r, db')).
Proof.
  assert (∀ db v,
    hasToken context = true →
    findRow (whereUserId (Context.userId context)) (cart db)
    = Some (id v, row v) →
    items v = itemsOf (id v) db → promo v = promoOf (row v) db →
    ∀ now', CartResolvers.userCart users now' context db = (Done (Some v), db))
    as Hagain.
  { intros db0 [i c l p] Htoken Hfind Hitems Hpromo now'. cbn in *. subst.
    unfold CartResolvers.userCart, tryCatch. rewrite Htoken.
    unfold andThen. by rewrite await_run, findByUserId_run, Hfind. }
  intros Hrun. unfold CartResolvers.userCart, tryCatch in Hrun.
  destruct (hasToken context) eqn:Htoken; [|discriminate].
  unfold andThen in Hrun. rewrite await_run, findByUserId_run in Hrun.
  destruct (findRow _ (cart db)) as [[i c]|] eqn:Hfind.
  - injection Hrun as <- <-.
    pose proof Hfind as [Hc Hwhere]%findRow_Some.
    eexists. split; [done|]. split; [by apply hasToken_true|].
    cbn [id row]. split; [done|].
    split; [intros u Hu _; rewrite Hu in Hwhere; by apply whereUserId_given|].
    split; [intros Hu; rewrite Hu in Hwhere; by apply whereUserId_null|].
    split; [intros Hu; rewrite Hu in Hfind; by left|].
    split; [by left|]. intros _. by apply Hagain.
  - rewrite await_run in Hrun. unfold createOrUpdateCart in Hrun.
    assert ((match truthy (given_id (Context.userId context)) with
             | Some u =>
               let* db := get in
               ret (findRow (λ c, bool_decide (Cart.userId c = Some u))
                      (cart db))
             | None => ret None
             end) db = (Return None, db)) as Hnone.
    { destruct (Context.userId context) as [| |[|a u]] eqn:Hu; try done.
      cbn [given_id truthy]. unfold bind, get, ret.
      unfold whereUserId in Hfind. by rewrite Hfind. }
    unfold bind at 1 in Hrun. rewrite Hnone in Hrun. unfold cart_create in Hrun.
    unfold bind, get, modify, ret, throw in Hrun.
    destruct (from_option _ _ _); [|discriminate]. injection Hrun as <- <-.
    eexists. split; [done|]. split; [by apply hasToken_true|].
    cbn [id row cart withCart Cart.userId].
    split; [apply lookup_insert_eq|].
    split; [by intros [|a u] -> Hne|].
    split; [by intros ->|].
    split.
    { intros Hu. right. split; [|by rewrite Hu].
      rewrite Hu in Hfind. apply map_empty. intros j.
      apply eq_None_not_Some. intros [c Hc].
      by apply (findRow_None _ _ j c) in Hfind. }
    split; [right; split; [apply not_elem_of_dom, is_fresh | done]|].
    intros Huser. apply Hagain; [done| |done|done].
    cbn [id row cart withCart]. apply findRow_only; [done|].
    destruct (Context.userId context) as [| |[|a u]]; try done;
      by apply bool_decide_eq_true_2.
Qed.

(** * Refunds *)

Lemma createRefund_run paymentId amount reason providerRefundId s :
  PaymentRepository.createRefund paymentId amount reason providerRefundId s
  = match PaymentRepository.payment s !! paymentId with
    | None => (Raise (PaymentRepository.PaymentNotFound paymentId), s)
    | Some p =>
      if negb (String.eqb (Payment.status p) "COMPLETED")
      then (Raise (PaymentRepository.CannotRefund (Payment.status p)), s)
      else if Qltb (Payment.amount p)
                (PaymentRepository.refunded paymentId s + amount)
      then (Raise PaymentRepository.RefundExceedsPayment, s)
      else
        let refunds :=
          <[fresh (dom (PaymentRepository.refund s)) :=
              Refund.mk paymentId amount (Payment.currency p) reason
                "COMPLETED" providerRefundId]> (PaymentRepository.refund s) in
        let p' :=
          Payment.setStatus
            (if Qeq_bool (PaymentRepository.refunded paymentId s + amount)
                  (Payment.amount p)
             then "REFUNDED" else "PARTIALLY_REFUNDED") p in
        let s' :=
          PaymentRepository.mkStore
            (<[paymentId := p']> (PaymentRepository.payment s)) refunds in
        (Done (PaymentRepository.mkPaymentWithRefunds paymentId p'
                 (PaymentRepository.refundsOf paymentId s')), s')
    end.
Proof.
  unfold PaymentRepository.createRefund, andThen, PaymentRepository.findById,
    raise.
  destruct (PaymentRepository.payment s !! paymentId) as [p|] eqn:Hp; [|done].
  cbn [fmap option_fmap option_map PaymentRepository.row
       PaymentRepository.refunds].
  destruct (negb _); [done|]. fold (PaymentRepository.refunded paymentId s).
  destruct (Qltb _ _); [done|].
  unfold PaymentRepository.refund_create, PaymentRepository.update, hasRow.
  cbn [Refund.paymentId]. rewrite bool_decide_eq_true_2 by (rewrite Hp; eauto).
  cbn [PaymentRepository.payment PaymentRepository.refund]. by rewrite Hp.
Qed.


(** X24.  A refund that [createRefund] refuses leaves no trace: the store is
    as it was, and the error names the reason, which is an unknown payment, a
    payment whose status is not COMPLETED, or an amount that together with the
    earlier refunds exceeds what was paid. *)
Theorem createRefund_all_or_nothing paymentId amount reason providerRefundId
    s e s' :
  PaymentRepository.createRefund paymentId amount reason providerRefundId s
  = (Raise e, s') →
  s' = s
  ∧ match PaymentRepository.payment s !! paymentId with
    | None => e = PaymentRepository.PaymentNotFound paymentId
    | Some p =>
      (Payment.status p ≠ "COMPLETED"
       ∧ e = PaymentRepository.CannotRefund (Payment.status p))
      ∨ (Payment.status p = "COMPLETED"
         ∧ Payment.amount p < PaymentRepository.refunded paymentId s + amount
         ∧ e = PaymentRepository.RefundExceedsPayment)
    end.
Proof.
  rewrite createRefund_run.
  destruct (PaymentRepository.payment s !! paymentId) as [p|];
    [|by intros [= <- <-]].
  destruct (String.eqb _ _) eqn:Hstatus; cbn [negb].
  - apply String.eqb_eq in Hstatus.
    destruct (Qltb _ _) eqn:Hlt; [|discriminate]. intros [= <- <-].
    split; [done|]. right. by apply Qltb_lt in Hlt.
  - apply String.eqb_neq in Hstatus. intros [= <- <-]. split; [done|]. by left.
Qed.

Lemma refunded_none paymentId s :
  PaymentRepository.refundsOf paymentId s = [] →
  PaymentRepository.refunded paymentId s = 0.
Proof. unfold PaymentRepository.refunded. by intros ->. Qed.

(** X25.  [createRefund] never looks at the sign of the amount: the first
    refund of a payment with the status COMPLETED goes through for every
    amount that is not above the payment's, zero and negative amounts
    included, and a refund row with that amount is stored.  (Without earlier
    refunds the total refunded is [0 + amount], the amount itself.) *)
Theorem createRefund_accepts_any_first_amount paymentId amount reason
    providerRefundId s p :
  PaymentRepository.payment s !! paymentId = Some p →
  Payment.status p = "COMPLETED" →
  PaymentRepository.refundsOf paymentId s = [] →
  amount <= Payment.amount p →
  ∃ r s' i,
    PaymentRepository.createRefund paymentId amount reason providerRefundId s
    = (Done r, s')
    ∧ PaymentRepository.refund s !! i = None
    ∧ PaymentRepository.refund s' !! i
      = Some (Refund.mk paymentId amount (Payment.currency p) reason
                "COMPLETED" providerRefundId).
Proof.
  intros Hp Hstatus Hnone%refunded_none Hamount.
  rewrite createRefund_run, Hp, Hstatus, Hnone. cbn [String.eqb negb].
  destruct (Qltb _ _) eqn:Hlt.
  { apply Qltb_lt in Hlt. rewrite Qplus_0_l in Hlt.
    by apply Qle_not_lt in Hamount. }
  cbn zeta. eexists _, _, _. split; [reflexivity|].
  split; [apply not_elem_of_dom, is_fresh|].
  cbn [PaymentRepository.refund]. apply lookup_insert_eq.
Qed.

(** X26.  A successful [createRefund] adds one refund, for the amount asked,
    in the currency of the payment and with the status COMPLETED, and changes
    the status of the payment to REFUNDED or to PARTIALLY_REFUNDED.  Nothing
    else of the payment changes and no other payment is written.  For the
    first refund of a payment the status is REFUNDED when the amount is the
    payment's and PARTIALLY_REFUNDED when it is below. *)
Theorem createRefund_records_the_refund paymentId amount reason
    providerRefundId s r s' :
  PaymentRepository.createRefund paymentId amount reason providerRefundId s
  = (Done r, s') →
  ∃ p i newStatus,
    PaymentRepository.payment s !! paymentId = Some p
    ∧ PaymentRepository.refund s !! i = None
    ∧ PaymentRepository.refund s'
      = <[i := Refund.mk paymentId amount (Payment.currency p) reason
                 "COMPLETED" providerRefundId]> (PaymentRepository.refund s)
    ∧ PaymentRepository.payment s'
      = <[paymentId := Payment.setStatus newStatus p]>
          (PaymentRepository.payment s)
    ∧ PaymentRepository.row r = Payment.setStatus newStatus p
    ∧ (newStatus = "REFUNDED" ∨ newStatus = "PARTIALLY_REFUNDED")
    ∧ (PaymentRepository.refundsOf paymentId s = [] →
       (amount == Payment.amount p → newStatus = "REFUNDED")
       ∧ (amount < Payment.amount p → newStatus = "PARTIALLY_REFUNDED")).
Proof.
  rewrite createRefund_run.
  destruct (PaymentRepository.payment s !! paymentId) as [p|]; [|discriminate].
  destruct (negb _); [discriminate|].
  destruct (Qltb _ _); [discriminate|]. cbn zeta. intros [= <- <-].
  eexists p, _, _. split; [done|].
  split; [apply not_elem_of_dom, is_fresh|].
  do 3 (split; [reflexivity|]).
  split; [destruct (Qeq_bool _ _); eauto|].
  intros ->%refunded_none.
  destruct (Qeq_bool _ _) eqn:Heq; split; try done.
  - intros Hlt. apply Qeq_bool_iff in Heq. rewrite Qplus_0_l in Heq.
    rewrite Heq in Hlt. by apply Qlt_irrefl in Hlt.
  - intros Heq'. rewrite <- (Qplus_0_l amount) in Heq'.
    apply Qeq_bool_iff in Heq'. congruence.
Qed.







(** * Redemptions that overlap *)

(** A request that runs alone is the method as one computation. *)
Lemma applyCouponTask_alone now user code cartId db :
  alone (applyCouponTask now user code cartId) db
  = applyCoupon now user code cartId db.
Proof.
  unfold applyCouponTask, applyCoupon. destruct user as [u|]; [|done].
  cbn [alone]. unfold bind at 1.
  destruct (coupon_findUnique code db) as [[e|[[couponId c]|]] db1]; try done.
  destruct (negb _ || _ || _); [done|].
  destruct (from_option _ _ _); [done|].
  cbn [alone]. unfold bind at 1.
  destruct (cart_findUnique_products cartId db1) as [[e|[items|]] db2];
    try done.
  destruct (cartTotalOf items) as [cartTotal|]; [|done].
  unfold checkMinPurchase, redeemTask. cbn zeta.
  assert (∀ db,
    alone (Await (coupon_incrementUsesCount couponId) (λ _,
           Await (cart_update cartId
                    (Cart.setCoupon (discountAmountOf c cartTotal) (Some code)))
             (λ _, Settled (Return (mkApplyCouponPayload cartId
                                      (discountAmountOf c cartTotal) code))))) db
    = (coupon_incrementUsesCount couponId;;;
       cart_update cartId
         (Cart.setCoupon (discountAmountOf c cartTotal) (Some code));;;
       ret (mkApplyCouponPayload cartId (discountAmountOf c cartTotal) code)) db)
    as Hwrites.
  { intros db0. cbn [alone]. unfold bind at 1.
    destruct (coupon_incrementUsesCount couponId db0) as [[e|[]] db3]; [done|].
    unfold bind. by destruct (cart_update _ _ db3) as [[e|[]] db4]. }
  destruct (truthyQ _) as [minPurchase|].
  - destruct (Qltb _ _); [done|]. by rewrite Hwrites.
  - by rewrite Hwrites.
Qed.





(** * The further properties at work on the small stores *)

(** Goes through the rows of a table that is written out. *)
Ltac each_row H :=
  repeat (apply lookup_insert_Some in H as [[<- <-]|[_ H]]);
  try (apply lookup_singleton_Some in H as [<- <-]);
  try (by rewrite lookup_empty in H).

Lemma couponShop_wellReferenced : wellReferenced couponShop.
Proof. intros i r Hi. cbn in Hi. each_row Hi; by eexists. Qed.

Lemma mutation_all_or_nothing_witness :
  ∃ e db',
    run 0 (AddItem "cart1" (mkCartItemInput "ghost" None 1)) couponShop
    = (Throw e, db')
    ∧ db' = couponShop
    ∧ expectedError (AddItem "cart1" (mkCartItemInput "ghost" None 1)) e.
Proof.
  eexists _, _. split; [vm_compute; reflexivity|].
  apply (mutation_all_or_nothing 0 _ couponShop).
  - apply couponShop_wellReferenced.
  - vm_compute. reflexivity.
Defined.

Lemma wellReferenced_is_invariant_witness :
  wellReferenced
    (run 0 (AddItem "cart2" (mkCartItemInput "mug" None 2)) couponShop).2.
Proof.
  apply (wellReferenced_is_invariant 0
           (AddItem "cart2" (mkCartItemInput "mug" None 2)) couponShop
           (run 0 (AddItem "cart2" (mkCartItemInput "mug" None 2)) couponShop).1).
  - apply couponShop_wellReferenced.
  - by destruct (run _ _ _).
Defined.

Lemma recalculated_totals_in_range_witness :
  ∃ db',
    recalculateCartTotals "cart1" couponShop = (Return tt, db')
    ∧ ∃ c', cart db' !! "cart1" = Some c'
            ∧ 0 <= Cart.subtotal c'
            ∧ 0 <= Cart.discount c' ∧ Cart.discount c' <= Cart.subtotal c'
            ∧ 0 <= Cart.tax c'
            ∧ 0 <= Cart.shipping c'
            ∧ Cart.shipping c' <= Cart.total c'.
Proof.
  eexists _. split; [vm_compute; reflexivity|].
  apply (recalculated_totals_in_range "cart1" couponShop).
  - vm_compute. reflexivity.
  - intros i r Hi _. cbn in Hi. each_row Hi; by vm_compute.
  - intros c p Hc. vm_compute in Hc. injection Hc as <-. discriminate.
Defined.

Lemma updateItem_uses_captured_price_witness :
  ∃ r db',
    updateItem "item1" 3 (reprice "lamp" 80 couponShop) = (Return r, db')
    ∧ ∃ line,
        cartItem (reprice "lamp" 80 couponShop) !! "item1" = Some line
        ∧ cartItem db'
          = <["item1" :=
                CartItem.mk (CartItem.cartId line) (CartItem.productId line)
                  (CartItem.variantId line) 3 (CartItem.price line)
                  (inject_Z 3 * CartItem.price line)]>
              (cartItem (reprice "lamp" 80 couponShop))
        ∧ dom (cartItem db') = dom (cartItem (reprice "lamp" 80 couponShop))
        ∧ product db' = product (reprice "lamp" 80 couponShop).
Proof.
  eexists _, _. split; [vm_compute; reflexivity|].
  eapply (updateItem_uses_captured_price "item1" 3 (reprice "lamp" 80 couponShop)).
  vm_compute. reflexivity.
Defined.

Lemma removeItem_last_line_zeroes_totals_witness :
  ∃ v db',
    removeItem "item2" couponShop = (Return (Some v), db')
    ∧ cartItem db' = delete "item2" (cartItem couponShop)
    ∧ zeroed (row v).
Proof.
  eexists _, _. split; [vm_compute; reflexivity|].
  apply (removeItem_last_line_zeroes_totals "item2" couponShop).
  - vm_compute. reflexivity.
  - reflexivity.
  - intros p. discriminate.
Defined.

Lemma clearCart_only_that_cart_witness :
  ∃ r db',
    clearCart "cart1" couponShop = (Return r, db')
    ∧ (∃ v, r = Some v ∧ items v = [] ∧ promo v = None
            ∧ Cart.promoCodeId (row v) = None)
    ∧ itemsOf "cart1" db' = []
    ∧ (∀ other, other ≠ "cart1" →
         cart db' !! other = cart couponShop !! other
         ∧ itemsOf other db' = itemsOf other couponShop).
Proof.
  eexists _, _. split; [vm_compute; reflexivity|].
  apply (clearCart_only_that_cart "cart1" couponShop). vm_compute. reflexivity.
Defined.

Lemma applyPromoCode_stores_discount_witness :
  ∃ r db',
    applyPromoCode 0 "cart1" "WELCOME" couponShop = (Return r, db')
    ∧ ∃ promoCodeId p v,
        promoCode couponShop !! promoCodeId = Some p
        ∧ PromoCode.code p = "WELCOME"
        ∧ (∀ expiresAt, PromoCode.expiresAt p = Some expiresAt →
                        (0 ≤ expiresAt)%Z)
        ∧ r = Some v
        ∧ cart db' !! "cart1" = Some (row v)
        ∧ Cart.promoCodeId (row v) = Some promoCodeId
        ∧ promo v = Some p
        ∧ Cart.discount (row v)
          = (if PromoCode.isPercentage p
             then Cart.subtotal (row v) * (PromoCode.discount p / 100)
             else Qmin (PromoCode.discount p) (Cart.subtotal (row v)))
        ∧ cartItem db' = cartItem couponShop.
Proof.
  eexists _, _. split; [vm_compute; reflexivity|].
  apply (applyPromoCode_stores_discount 0 "cart1" "WELCOME" couponShop).
  vm_compute. reflexivity.
Defined.



Lemma createOrUpdateCart_creates_witness :
  ∃ v db',
    createOrUpdateCart customers 0 (Some "user2") couponShop
    = (Return (Some v), db')
    ∧ cart couponShop !! id v = None
    ∧ cart db' = <[id v := row v]> (cart couponShop)
    ∧ cartItem db' = cartItem couponShop
    ∧ Cart.userId (row v) = Some "user2"
    ∧ Cart.expiresAt (row v) = Some 2592000000%Z
    ∧ Cart.promoCodeId (row v) = None
    ∧ zeroed (row v).
Proof.
  apply (createOrUpdateCart_creates customers 0 (Some "user2") couponShop).
  intros u [= <-]. split; [set_solver|].
  intros i c Hc. cbn in Hc. each_row Hc; discriminate.
Defined.


Lemma applyCoupon_only_when_allowed_witness :
  ∃ payload db',
    applyCoupon 1000 (Some alice) "CAPPED" "cart1" cappedShop
    = (Return payload, db')
    ∧ ∃ couponId c cartTotal,
        coupon cappedShop !! couponId = Some c
        ∧ Coupon.code c = "CAPPED"
        ∧ is_Some (Some alice)
        ∧ Coupon.isActive c = true
        ∧ (Coupon.startDate c ≤ 1000 ≤ Coupon.endDate c)%Z
        ∧ (∀ maxUses, Coupon.maxUses c = Some maxUses → maxUses ≠ 0%Z →
                      (Coupon.usesCount c < maxUses)%Z)
        ∧ catalogTotal "cart1" cappedShop = Some cartTotal
        ∧ (∀ minPurchase, Coupon.minPurchase c = Some minPurchase →
                          ¬ minPurchase == 0 → minPurchase <= cartTotal).
Proof.
  eexists _, _. split; [vm_compute; reflexivity|].
  eapply (applyCoupon_only_when_allowed 1000 (Some alice) "CAPPED" "cart1"
           cappedShop).
  vm_compute. reflexivity.
Defined.



Lemma applyCoupon_percentage_capped_witness :
  ∃ payload db',
    applyCoupon 1000 (Some alice) "CAPPED" "cart1" cappedShop
    = (Return payload, db')
    ∧ payloadDiscountAmount payload <= 30.
Proof.
  eexists _, _. split; [vm_compute; reflexivity|].
  eapply (applyCoupon_percentage_capped 1000 (Some alice) "CAPPED" "cart1"
            cappedShop).
  - vm_compute. reflexivity.
  - vm_compute. reflexivity.
  - reflexivity.
  - reflexivity.
  - by vm_compute.
Defined.

Lemma coupon_mutations_all_or_nothing_witness :
  ∃ e db',
    applyCoupon 1000 (Some alice) "SPENT" "cart1" couponShop = (Throw e, db')
    ∧ db' = couponShop.
Proof.
  eexists _, _. split; [vm_compute; reflexivity|].
  apply (coupon_mutations_all_or_nothing 1000 (Some alice) "SPENT" "cart1"
           couponShop CouponNotActiveOrExpired).
  left. vm_compute. reflexivity.
Defined.

Lemma coupon_removed_stays_redeemed_witness :
  ∃ payload db1,
    applyCoupon 1000 (Some alice) "SAVE20" "cart1" couponShop
    = (Return payload, db1)
    ∧ ∃ db2 couponId coupon0 coupon2,
        removeCoupon (Some alice) "cart1" db1 = (Return true, db2)
        ∧ cart db2 = cart couponShop
        ∧ cartItem db2 = cartItem couponShop
        ∧ coupon couponShop !! couponId = Some coupon0
        ∧ Coupon.code coupon0 = "SAVE20"
        ∧ coupon db2 !! couponId = Some coupon2
        ∧ Coupon.usesCount coupon2 = (Coupon.usesCount coupon0 + 1)%Z.
Proof.
  eexists _, _. split; [vm_compute; reflexivity|].
  eapply (coupon_removed_stays_redeemed 1000 (Some alice) "SAVE20" "cart1"
            couponShop).
  - vm_compute. reflexivity.
  - reflexivity.
  - reflexivity.
  - vm_compute. reflexivity.
Defined.

Lemma cart_resolvers_mask_errors_witness :
  ∃ g db',
    CartResolvers.cart "cart1" stranger couponShop = (Raise g, db')
    ∧ g = GraphQL.mk "Failed to fetch cart" GraphQL.INTERNAL_SERVER_ERROR.
Proof.
  eexists _, _. split; [vm_compute; reflexivity|].
  apply (cart_resolvers_mask_errors customers 0 "cart1" 1
           (mkAddToCartInput None "mug" None 1) "WELCOME" stranger couponShop
           "Failed to fetch cart" _ couponShop).
  left. split; [vm_compute|]; reflexivity.
Defined.

Lemma item_mutations_need_the_owner_witness :
  CartResolvers.updateCartItem "item1" 5 stranger couponShop
  = (Raise (GraphQL.mk "Failed to update cart item"
              GraphQL.INTERNAL_SERVER_ERROR), couponShop)
  ∧ CartResolvers.removeFromCart "item1" stranger couponShop
    = (Raise (GraphQL.mk "Failed to remove cart item"
                GraphQL.INTERNAL_SERVER_ERROR), couponShop).
Proof.
  eapply (item_mutations_need_the_owner stranger "item1" 5 couponShop).
  - vm_compute. reflexivity.
  - vm_compute. reflexivity.
  - reflexivity.
  - right. discriminate.
Defined.

Lemma cart_mutations_need_a_token_witness :
  CartResolvers.userCart customers 0 anonymous couponShop
  = (Raise (GraphQL.mk "Failed to fetch user cart"
              GraphQL.INTERNAL_SERVER_ERROR), couponShop)
  ∧ CartResolvers.clearCart anonymous couponShop
    = (Raise (GraphQL.mk "Failed to clear cart"
                GraphQL.INTERNAL_SERVER_ERROR), couponShop)
  ∧ CartResolvers.applyPromoCode 0 "WELCOME" anonymous couponShop
    = (Raise (GraphQL.mk "Failed to apply promo code"
                GraphQL.INTERNAL_SERVER_ERROR), couponShop)
  ∧ CartResolvers.removePromoCode anonymous couponShop
    = (Raise (GraphQL.mk "Failed to remove promo code"
                GraphQL.INTERNAL_SERVER_ERROR), couponShop).
Proof.
  apply (cart_mutations_need_a_token customers 0 "WELCOME" anonymous couponShop).
  reflexivity.
Defined.

Lemma clearCart_resolver_clears_callers_cart_witness :
  Context.userId holder = undefined
  ∧ ∃ response db',
      CartResolvers.clearCart holder couponShop = (Done response, db')
      ∧ (∃ v, CartResponse.cart response = Some v
              ∧ Cart.userId (row v) = Some "user1")
      ∧ ∃ cartId c,
          findRow (whereUserId (Context.userId holder)) (cart couponShop)
          = Some (cartId, c)
          ∧ cart couponShop !! cartId = Some c
          ∧ (∀ u, Context.userId holder = given u → Cart.userId c = Some u)
          ∧ (Context.userId holder = null → Cart.userId c = None)
          ∧ Context.token holder ≠ ""
          ∧ (∃ v, CartResponse.cart response = Some v
                  ∧ id v = cartId ∧ items v = [])
          ∧ itemsOf cartId db' = []
          ∧ ∀ other, other ≠ cartId →
              cart db' !! other = cart couponShop !! other
              ∧ itemsOf other db' = itemsOf other couponShop.
Proof.
  split; [reflexivity|].
  eexists _, _. split; [vm_compute; reflexivity|].
  split; [eexists; split; reflexivity|].
  apply (clearCart_resolver_clears_callers_cart holder couponShop).
  vm_compute. reflexivity.
Defined.

Lemma addToCart_anonymous_names_any_cart_witness :
  Cart.userId (Cart.mk (Some "user1") 100 10 10 0 120 None 0 None None)
  = Some "user1"
  ∧ CartResolvers.addToCart customers 0
      (mkAddToCartInput (Some "cart1") "mug" None 1) anonymous couponShop
    = match addItem "cart1" (mkCartItemInput "mug" None 1) couponShop with
      | (Return r, db') => (Done (ok "Item added to cart successfully" r), db')
      | (Throw _, db') =>
        (Raise (GraphQL.mk "Failed to add item to cart"
                  GraphQL.INTERNAL_SERVER_ERROR), db')
      end.
Proof.
  split; [reflexivity|].
  apply (addToCart_anonymous_names_any_cart customers 0
           (mkAddToCartInput (Some "cart1") "mug" None 1) anonymous "cart1"
           couponShop
           (Cart.mk (Some "user1") 100 10 10 0 120 None 0 None None)).
  - reflexivity.
  - reflexivity.
  - vm_compute. reflexivity.
Defined.

Lemma userCart_finds_or_creates_witness :
  Context.userId holder = undefined
  ∧ ∃ r db',
      CartResolvers.userCart customers 0 holder couponShop = (Done r, db')
      ∧ (∃ v, r = Some v ∧ Cart.userId (row v) = Some "user1")
      ∧ ∃ v,
          r = Some v
          ∧ Context.token holder ≠ ""
          ∧ cart db' !! id v = Some (row v)
          ∧ (∀ u, Context.userId holder = given u → u ≠ "" →
                  Cart.userId (row v) = Some u)
          ∧ (Context.userId holder = null → Cart.userId (row v) = None)
          ∧ (Context.userId holder = undefined →
             findRow (λ _, true) (cart couponShop) = Some (id v, row v)
             ∨ (cart couponShop = ∅ ∧ Cart.userId (row v) = None))
          ∧ (db' = couponShop
             ∨ (cart couponShop !! id v = None
                ∧ db' = withCart <[id v := row v]> couponShop))
          ∧ (Context.userId holder ≠ given "" →
             ∀ now',
               CartResolvers.userCart customers now' holder db' = (Done r, db')).
Proof.
  split; [reflexivity|].
  eexists _, _. split; [vm_compute; reflexivity|].
  split; [eexists; split; reflexivity|].
  apply (userCart_finds_or_creates customers 0 holder couponShop).
  vm_compute. reflexivity.
Defined.

Lemma createRefund_all_or_nothing_witness :
  ∃ e s',
    PaymentRepository.createRefund "pay1" 120 "damaged" "re_1" ledger
    = (Raise e, s')
    ∧ s' = ledger
    ∧ e = PaymentRepository.RefundExceedsPayment.
Proof.
  eexists _, _. split; [vm_compute; reflexivity|].
  destruct (createRefund_all_or_nothing "pay1" 120 "damaged" "re_1" ledger
              PaymentRepository.RefundExceedsPayment ledger) as [Hs He].
  - vm_compute. reflexivity.
  - done.
Defined.

Lemma createRefund_accepts_any_first_amount_witness :
  ∃ r s' i,
    PaymentRepository.createRefund "pay1" (-25) "damaged" "re_1" ledger
    = (Done r, s')
    ∧ PaymentRepository.refund ledger !! i = None
    ∧ PaymentRepository.refund s' !! i
      = Some (Refund.mk "pay1" (-25) "USD" "damaged" "COMPLETED" "re_1").
Proof.
  apply (createRefund_accepts_any_first_amount "pay1" (-25) "damaged" "re_1"
           ledger (Payment.mk "order1" 100 "USD" "COMPLETED")).
  - vm_compute. reflexivity.
  - reflexivity.
  - vm_compute. reflexivity.
  - by vm_compute.
Defined.

Lemma createRefund_records_the_refund_witness :
  PaymentRepository.refundsOf "pay1" ledger = []
  ∧ ∃ r s',
      PaymentRepository.createRefund "pay1" 40 "damaged" "re_1" ledger
      = (Done r, s')
      ∧ ∃ p i newStatus,
          PaymentRepository.payment ledger !! "pay1" = Some p
          ∧ PaymentRepository.refund ledger !! i = None
          ∧ PaymentRepository.refund s'
            = <[i := Refund.mk "pay1" 40 (Payment.currency p) "damaged"
                       "COMPLETED" "re_1"]> (PaymentRepository.refund ledger)
          ∧ PaymentRepository.payment s'
            = <["pay1" := Payment.setStatus newStatus p]>
                (PaymentRepository.payment ledger)
          ∧ PaymentRepository.row r = Payment.setStatus newStatus p
          ∧ (newStatus = "REFUNDED" ∨ newStatus = "PARTIALLY_REFUNDED")
          ∧ (PaymentRepository.refundsOf "pay1" ledger = [] →
             (40 == Payment.amount p → newStatus = "REFUNDED")
             ∧ (40 < Payment.amount p → newStatus = "PARTIALLY_REFUNDED")).
Proof.
  split; [vm_compute; reflexivity|].
  eexists _, _. split; [vm_compute; reflexivity|].
  apply (createRefund_records_the_refund "pay1" 40 "damaged" "re_1" ledger).
  vm_compute. reflexivity.
Defined.




Lemma couponShop_allBalanced : allBalanced couponShop.
Proof. intros i c Hc. cbn in Hc. each_row Hc; by vm_compute. Qed.

Lemma balanced_is_invariant_witness :
  allBalanced
    (run 0 (AddItem "cart2" (mkCartItemInput "mug" None 2)) couponShop).2.
Proof.
  eapply (balanced_is_invariant 0
            (AddItem "cart2" (mkCartItemInput "mug" None 2)) couponShop
            (run 0 (AddItem "cart2" (mkCartItemInput "mug" None 2))
               couponShop).1).
  - apply couponShop_allBalanced.
  - by destruct (run _ _ _).
Defined.

Lemma subtotal_of_consistent_rows_witness :
  ∃ db',
    recalculateCartTotals "cart1" couponShop = (Return tt, db')
    ∧ ∃ c, cart db' !! "cart1" = Some c
           ∧ Cart.subtotal c == capturedSubtotal "cart1" db'.
Proof.
  eexists. split; [vm_compute; reflexivity|].
  apply (subtotal_of_consistent_rows "cart1" couponShop).
  - vm_compute. reflexivity.
  - intros i r Hi. cbn in Hi. each_row Hi; by vm_compute.
Defined.
